(** * Blowout checker (mlb_blowout.py): the evaluator and the poll-cycle body

    A shallow embedding of [BlowoutChecker.is_blowout] and of the
    per-game body of [BlowoutChecker.check_blowouts], over the JSON
    values that [response.json()] hands to the code, with Python's
    exceptions made explicit. *)

From Stdlib Require Import ZArith List String Bool Lia.
Import ListNotations.
Local Open Scope string_scope.
Local Open Scope list_scope.
Local Open Scope Z_scope.
Local Set Warnings "-register-all".

(** ** JSON documents as Python objects

    [json.loads] yields None, bool, int, str, list and dict.  Python ints
    are unbounded, hence [Z].  A dict is kept as an association list read
    by its first binding.  Numbers with a fraction (Python floats) are
    outside this model. *)

Inductive value : Type :=
| JNull
| JBool (b : bool)
| JInt (n : Z)
| JStr (s : string)
| JList (items : list value)
| JDict (fields : list (string * value)).

(** The exceptions the code can meet while walking a document. *)
Inductive exn : Type := KeyError | TypeError | AttributeError.

(** ** A small error monad: [inl e] is a raised exception. *)

Definition py (A : Type) : Type := (exn + A)%type.

Definition ret {A} (a : A) : py A := inr a.
Definition raise {A} (e : exn) : py A := inl e.
Definition bind {A B} (m : py A) (k : A -> py B) : py B :=
  match m with
  | inl e => inl e
  | inr a => k a
  end.

Declare Scope py_scope.
Delimit Scope py_scope with py.
Notation "x <- m ;; k" := (bind m (fun x => k))
  (at level 61, m at next level, right associativity) : py_scope.
Local Open Scope py_scope.

(** ** The Python operations the source uses *)

Fixpoint dict_get (d : list (string * value)) (k : string) : option value :=
  match d with
  | [] => None
  | (k', v) :: d' => if String.eqb k' k then Some v else dict_get d' k
  end.

(** [obj.get(k, dflt)]: only a dict has [get]; on anything else the
    attribute lookup raises AttributeError. *)
Definition py_get (obj : value) (k : string) (dflt : value) : py value :=
  match obj with
  | JDict d => ret (match dict_get d k with Some v => v | None => dflt end)
  | _ => raise AttributeError
  end.

(** Truth value, as [not x] and [if x] test it. *)
Definition py_truthy (v : value) : bool :=
  match v with
  | JNull => false
  | JBool b => b
  | JInt n => negb (n =? 0)
  | JStr s => negb (String.eqb s "")
  | JList l => match l with [] => false | _ => true end
  | JDict d => match d with [] => false | _ => true end
  end.

Fixpoint string_firstn (n : nat) (s : string) : string :=
  match n, s with
  | S n', String c s' => String c (string_firstn n' s')
  | _, _ => EmptyString
  end.

Fixpoint string_skipn (n : nat) (s : string) : string :=
  match n, s with
  | S n', String _ s' => string_skipn n' s'
  | _, _ => s
  end.

(** [x[:n]]: lists and strings are sliced; None, bool and int are not
    subscriptable and a dict rejects a slice as a key (TypeError up to
    Python 3.11, KeyError from 3.12, both handled alike by the caller;
    the older behaviour is the one written here). *)
Definition py_slice_to (n : nat) (v : value) : py value :=
  match v with
  | JList l => ret (JList (firstn n l))
  | JStr s => ret (JStr (string_firstn n s))
  | _ => raise TypeError
  end.

(** [x[n:]]. *)
Definition py_slice_from (n : nat) (v : value) : py value :=
  match v with
  | JList l => ret (JList (skipn n l))
  | JStr s => ret (JStr (string_skipn n s))
  | _ => raise TypeError
  end.

Fixpoint string_chars (s : string) : list value :=
  match s with
  | EmptyString => []
  | String c s' => JStr (String c EmptyString) :: string_chars s'
  end.

(** The items a [for] loop or a generator draws from an object. *)
Definition py_iter (v : value) : py (list value) :=
  match v with
  | JList l => ret l
  | JStr s => ret (string_chars s)
  | JDict d => ret (map (fun kv => JStr (fst kv)) d)
  | _ => raise TypeError
  end.

(** [acc + x] with an int on the left: bool is a subclass of int, every
    other operand is unsupported. *)
Definition int_add (acc : Z) (x : value) : py Z :=
  match x with
  | JInt n => ret (acc + n)
  | JBool b => ret (acc + Z.b2z b)
  | _ => raise TypeError
  end.

(** ** Configuration *)

Definition RUN_THRESHOLD : Z := 5.

(** ** [is_blowout] *)

(** The analysis dict built at lines 125-130; [{}] is [None]. *)
Record Analysis : Type := mkAnalysis {
  through_6_home : Z;
  through_6_away : Z;
  through_6_lead : Z;
  maintained_lead : bool
}.

(** [analysis["maintained_lead"] = v] *)
Definition set_maintained_lead (a : Analysis) (v : bool) : Analysis :=
  mkAnalysis (through_6_home a) (through_6_away a) (through_6_lead a) v.

(** [i.get(side, {}).get("runs", 0)] *)
Definition inning_runs (side : string) (i : value) : py value :=
  t <- py_get i side (JDict []) ;;
  py_get t "runs" (JInt 0).

(** [sum(i.get(side, {}).get("runs", 0) for i in items)], with the
    running result as an argument ([sum] starts it at 0). *)
Fixpoint sum_runs (side : string) (acc : Z) (items : list value) : py Z :=
  match items with
  | [] => ret acc
  | i :: rest =>
      x <- inning_runs side i ;;
      acc' <- int_add acc x ;;
      sum_runs side acc' rest
  end.

(** The loop of lines 137-142 over the items of [innings[6:]]. *)
Fixpoint scan_later (analysis : Analysis) (cum_home cum_away : Z)
  (items : list value) : py (bool * option Analysis) :=
  match items with
  | [] => ret (true, Some analysis)
  | inning :: rest =>
      x <- inning_runs "home" inning ;;
      cum_home' <- int_add cum_home x ;;
      y <- inning_runs "away" inning ;;
      cum_away' <- int_add cum_away y ;;
      if Z.abs (cum_home' - cum_away') <? RUN_THRESHOLD
      then ret (false, Some (set_maintained_lead analysis false))
      else scan_later analysis cum_home' cum_away' rest
  end.

(** The body of the [try] block, lines 114-144. *)
Definition is_blowout_try (game : value) : py (bool * option Analysis) :=
  linescore <- py_get game "linescore" (JDict []) ;;
  innings <- py_get linescore "innings" (JList []) ;;
  if negb (py_truthy innings) then ret (false, None) else
  first_home <- py_slice_to 6 innings ;;
  items_home <- py_iter first_home ;;
  cum_home <- sum_runs "home" 0 items_home ;;
  first_away <- py_slice_to 6 innings ;;
  items_away <- py_iter first_away ;;
  cum_away <- sum_runs "away" 0 items_away ;;
  let analysis :=
    mkAnalysis cum_home cum_away (Z.abs (cum_home - cum_away)) true in
  if Z.abs (cum_home - cum_away) <? RUN_THRESHOLD
  then ret (false, Some analysis)
  else
    later <- py_slice_from 6 innings ;;
    items <- py_iter later ;;
    scan_later analysis cum_home cum_away items.

(** A record written by [logging.error]. *)
Inductive log_record : Type :=
| LogError (message : string) (e : exn).

(** [except (KeyError, TypeError)] *)
Definition handled (e : exn) : bool :=
  match e with
  | KeyError | TypeError => true
  | AttributeError => false
  end.

(** [is_blowout]: what is logged, and what is returned or raised. *)
Definition is_blowout (game : value)
  : list log_record * py (bool * option Analysis) :=
  match is_blowout_try game with
  | inr r => ([], ret r)
  | inl e =>
      if handled e
      then ([LogError "Error processing game data" e], ret (false, None))
      else ([], raise e)
  end.

(** ** The data model of the specification

    An inning line holds the two integer run counts of one inning; a game
    is read as the ordered list of its inning lines. *)

Record InningLine : Type := mkInning {
  home_runs : Z;
  away_runs : Z
}.

Definition total_home (l : list InningLine) : Z :=
  fold_right Z.add 0 (map home_runs l).

Definition total_away (l : list InningLine) : Z :=
  fold_right Z.add 0 (map away_runs l).

(** Absolute run differential over the innings of [l]. *)
Definition lead (l : list InningLine) : Z :=
  Z.abs (total_home l - total_away l).

(** How a JSON document carries inning lines: each entry is a dict whose
    ["home"] and ["away"] records hold an integer under ["runs"]; other
    keys of the entry, of the linescore and of the game are free. *)

Definition runs_field (side : string) (v : value) : option Z :=
  match v with
  | JDict d =>
      match dict_get d side with
      | Some (JDict t) =>
          match dict_get t "runs" with
          | Some (JInt n) => Some n
          | _ => None
          end
      | _ => None
      end
  | _ => None
  end.

Definition inning_line (v : value) : option InningLine :=
  match runs_field "home" v, runs_field "away" v with
  | Some h, Some a => Some (mkInning h a)
  | _, _ => None
  end.

Fixpoint inning_lines (vs : list value) : option (list InningLine) :=
  match vs with
  | [] => Some []
  | v :: vs' =>
      match inning_line v, inning_lines vs' with
      | Some il, Some l => Some (il :: l)
      | _, _ => None
      end
  end.

(** The list stored under [game["linescore"]["innings"]]. *)
Definition game_innings (game : value) : option (list value) :=
  match game with
  | JDict dg =>
      match dict_get dg "linescore" with
      | Some (JDict dl) =>
          match dict_get dl "innings" with
          | Some (JList vs) => Some vs
          | _ => None
          end
      | _ => None
      end
  | _ => None
  end.

Definition game_lines (game : value) : option (list InningLine) :=
  match game_innings game with
  | Some vs => inning_lines vs
  | None => None
  end.

(** The canonical document of a list of inning lines. *)
Definition encode_inning (il : InningLine) : value :=
  JDict [("home", JDict [("runs", JInt (home_runs il))]);
         ("away", JDict [("runs", JInt (away_runs il))])].

Definition game_with (vs : list value) : value :=
  JDict [("linescore", JDict [("innings", JList vs)])].

Definition encode_game (l : list InningLine) : value :=
  game_with (map encode_inning l).

(** ** The per-game body of [check_blowouts] (lines 172-225)

    The calls that leave the evaluator are recorded as a trace: the
    detail request, the run of the evaluator and the upsert.  The feed
    itself is external and enters as a function. *)

(** The [game_data] dict handed to [update_supabase]. *)
Record game_data : Type := mkGameData {
  gd_game_pk : value;
  gd_date : string;
  gd_away_team : value;
  gd_home_team : value;
  gd_away_score : value;
  gd_home_score : value;
  gd_status : string;
  gd_is_blowout : bool;
  gd_analysis : option Analysis
}.

(** The row [update_supabase] upserts (lines 59-71), without the
    [updated_at] clock reading. *)
Record supabase_row : Type := mkRow {
  row_game_id : value;
  row_date : string;
  row_away_team : value;
  row_home_team : value;
  row_away_score : value;
  row_home_score : value;
  row_is_blowout : bool;
  row_through_6_lead : option Z;
  row_maintained_lead : option bool;
  row_status : string
}.

Definition supabase_row_of (gd : game_data) : supabase_row :=
  mkRow (gd_game_pk gd) (gd_date gd) (gd_away_team gd) (gd_home_team gd)
        (gd_away_score gd) (gd_home_score gd) (gd_is_blowout gd)
        (option_map through_6_lead (gd_analysis gd))
        (option_map maintained_lead (gd_analysis gd))
        (gd_status gd).

Inductive event : Type :=
| FetchGameData (game_pk : value)
| IsBlowout (game : value) (logged : list log_record)
| Upsert (gd : game_data) (row : supabase_row).

(** Exceptions together with the trace of calls made so far. *)
Definition io (A : Type) : Type := (list event * py A)%type.

Definition io_ret {A} (a : A) : io A := ([], ret a).
Definition io_lift {A} (m : py A) : io A := ([], m).
Definition io_bind {A B} (m : io A) (k : A -> io B) : io B :=
  match m with
  | (t, inl e) => (t, inl e)
  | (t, inr a) => let (t', r) := k a in (t ++ t', r)
  end.

Declare Scope io_scope.
Delimit Scope io_scope with io.
Notation "x <- m ;; k" := (io_bind m (fun x => k))
  (at level 61, m at next level, right associativity) : io_scope.

(** [update_supabase] contains every exception of its own (line 81). *)
Definition update_supabase (gd : game_data) : io unit :=
  ([Upsert gd (supabase_row_of gd)], ret tt).

(** [game.get("teams", {}).get(side, {}).get("team", {}).get("name", "Unknown")] *)
Definition team_name (side : string) (game : value) : py value :=
  teams <- py_get game "teams" (JDict []) ;;
  t <- py_get teams side (JDict []) ;;
  team <- py_get t "team" (JDict []) ;;
  py_get team "name" (JStr "Unknown").

(** [game.get("teams", {}).get(side, {}).get("score", 0)] *)
Definition team_score (side : string) (game : value) : py value :=
  teams <- py_get game "teams" (JDict []) ;;
  t <- py_get teams side (JDict []) ;;
  py_get t "score" (JInt 0).

(** [game.get("status", {}).get("codedGameState")] *)
Definition coded_game_state (game : value) : py value :=
  st <- py_get game "status" (JDict []) ;;
  py_get st "codedGameState" JNull.

(** [status == "F"]: only the string "F" equals it. *)
Definition is_final (status : value) : bool :=
  match status with
  | JStr s => String.eqb s "F"
  | _ => false
  end.

(** [obj[k] = v] with a string key. *)
Definition py_setitem (obj : value) (k : string) (v : value) : py value :=
  match obj with
  | JDict d => ret (JDict ((k, v) :: d))
  | _ => raise TypeError
  end.

Section PollCycle.

(** [fetch_game_data]: [None] when the request failed. *)
Variable feed : value -> option value.

Definition fetch_game_data (game_pk : value) : io (option value) :=
  ([FetchGameData game_pk], ret (feed game_pk)).

Definition run_is_blowout (game : value) : io (bool * option Analysis) :=
  let (logged, r) := is_blowout game in ([IsBlowout game logged], r).

Local Open Scope io_scope.

(** One pass of the loop body; [Some gd] is appended to
    [game_results], [None] is a [continue]. *)
Definition check_game (date : string) (game : value)
  : io (option game_data) :=
  game_pk <- io_lift (py_get game "gamePk" JNull) ;;
  if negb (py_truthy game_pk) then io_ret None else
  away_team <- io_lift (team_name "away" game) ;;
  home_team <- io_lift (team_name "home" game) ;;
  away_score <- io_lift (team_score "away" game) ;;
  home_score <- io_lift (team_score "home" game) ;;
  status <- io_lift (coded_game_state game) ;;
  if negb (is_final status) then
    _ <- update_supabase
           (mkGameData game_pk date away_team home_team away_score
                       home_score "In Progress" false None) ;;
    io_ret None
  else
    detailed_data <- fetch_game_data game_pk ;;
    match detailed_data with
    | None => io_ret None
    | Some detailed =>
        if negb (py_truthy detailed) then io_ret None else
        live <- io_lift (py_get detailed "liveData" (JDict [])) ;;
        linescore <- io_lift (py_get live "linescore" (JDict [])) ;;
        game' <- io_lift (py_setitem game "linescore" linescore) ;;
        r <- run_is_blowout game' ;;
        let gd := mkGameData game_pk date away_team home_team away_score
                             home_score "Final" (fst r) (snd r) in
        _ <- update_supabase gd ;;
        io_ret (Some gd)
    end.

(** The loop over the day's games; an exception ends it. *)
Fixpoint check_games (date : string) (games : list value)
  (game_results : list game_data) : io (list game_data) :=
  match games with
  | [] => io_ret game_results
  | game :: rest =>
      r <- check_game date game ;;
      check_games date rest
        match r with
        | Some gd => game_results ++ [gd]
        | None => game_results
        end
  end.

End PollCycle.

(** ** The rest of [check_blowouts] (lines 149-170 and 227-239)

    The clock and the schedule request are external and enter as a date
    and a function.  The printed table is kept as its rows, each cell
    holding the values its f-string interpolates. *)

(** [len(x)]; the code only logs the number, what matters is on which
    objects the call raises. *)
Definition py_len (v : value) : py nat :=
  match v with
  | JList l => ret (List.length l)
  | JStr s => ret (String.length s)
  | JDict d => ret (List.length d)
  | _ => raise TypeError
  end.

(** Lines 160-164: [if not dates: return], then [dates[0]].  [None] is
    the early return.  A non-empty dict has no key 0 (JSON keys are
    strings), a number is not subscriptable. *)
Definition dates_head (dates : value) : option (py value) :=
  match dates with
  | JNull => None
  | JBool b => if b then Some (raise TypeError) else None
  | JInt n => if n =? 0 then None else Some (raise TypeError)
  | JStr s =>
      match s with
      | EmptyString => None
      | String c _ => Some (ret (JStr (String c EmptyString)))
      end
  | JList l =>
      match l with
      | [] => None
      | d :: _ => Some (ret d)
      end
  | JDict d =>
      match d with
      | [] => None
      | _ :: _ => Some (raise KeyError)
      end
  end.

(** The three marks of the last column: a check mark, a cross and an
    ellipsis. *)
Inductive symbol : Type := CheckMark | CrossMark | Ellipsis.

(** Line 230 *)
Definition status_symbol (result : game_data) : symbol :=
  if gd_is_blowout result then CheckMark
  else if String.eqb (gd_status result) "Final" then CrossMark
  else Ellipsis.

Record table_row : Type := mkTableRow {
  cell_game : value * value;
  cell_score : value * value;
  cell_status : string;
  cell_symbol : symbol
}.

(** Lines 228-236 *)
Definition table_data (game_results : list game_data) : list table_row :=
  map (fun result =>
         mkTableRow (gd_away_team result, gd_home_team result)
                    (gd_away_score result, gd_home_score result)
                    (gd_status result)
                    (status_symbol result))
      game_results.

Section Cycle.

(** [datetime.now(timezone.utc).strftime("%Y-%m-%d")] *)
Variable today : string.

(** [fetch_schedule]: [None] when the request failed. *)
Variable fetch_schedule : string -> option value.

Variable feed : value -> option value.

Local Open Scope io_scope.

(** [check_blowouts]: the trace of the per-game calls, and the date and
    rows of the table it prints, or [None] when it returns early. *)
Definition check_blowouts (date : option string)
  : io (option (string * list table_row)) :=
  let date := match date with Some d => d | None => today end in
  match fetch_schedule date with
  | None => io_ret None
  | Some data =>
      if negb (py_truthy data) then io_ret None else
      dates <- io_lift (py_get data "dates" (JList [])) ;;
      match dates_head dates with
      | None => io_ret None
      | Some first =>
          day <- io_lift first ;;
          games <- io_lift (py_get day "games" (JList [])) ;;
          if negb (py_truthy games) then io_ret None else
          _ <- io_lift (py_len games) ;;
          items <- io_lift (py_iter games) ;;
          game_results <- check_games feed date items [] ;;
          io_ret (Some (date, table_data game_results))
      end
  end.

End Cycle.

(** ** The blowout rule in closed form

    [keeps_lead l]: after each of the innings 7, 8, ... of [l] the
    absolute differential of the totals so far is at least the
    threshold. *)

Definition keeps_lead (l : list InningLine) : bool :=
  forallb (fun k => RUN_THRESHOLD <=? lead (firstn k l))
          (seq 7 (List.length l - 6)).

Definition verdict (l : list InningLine) : bool * option Analysis :=
  match l with
  | [] => (false, None)
  | _ :: _ =>
      let l6 := firstn 6 l in
      if lead l6 <? RUN_THRESHOLD
      then (false,
            Some (mkAnalysis (total_home l6) (total_away l6) (lead l6) true))
      else (keeps_lead l,
            Some (mkAnalysis (total_home l6) (total_away l6) (lead l6)
                             (keeps_lead l)))
  end.

Definition swap_sides (il : InningLine) : InningLine :=
  mkInning (away_runs il) (home_runs il).

Definition swap_analysis (a : Analysis) : Analysis :=
  mkAnalysis (through_6_away a) (through_6_home a) (through_6_lead a)
             (maintained_lead a).

Definition scoreless : InningLine := mkInning 0 0.

(** ** Documents of the right shape

    Every object the evaluator calls [get] on is a dict: the game, its
    linescore, each inning entry and each side's record.  Nothing is
    asked of the run counts themselves. *)





(** ** What a persisted row may look like

    The status is one of the two the loop writes; an in-progress row has
    no verdict and no lead figures; a row flagged as a blowout is final,
    kept its lead and led by at least the threshold after six. *)



(** The shapes of the trace one game can leave. *)
Inductive game_trace : list event -> Prop :=
| trace_skipped : game_trace []
| trace_in_progress gd :
    gd_status gd = "In Progress" ->
    game_trace [Upsert gd (supabase_row_of gd)]
| trace_no_detail pk : game_trace [FetchGameData pk]
| trace_raised pk game logged :
    game_trace [FetchGameData pk; IsBlowout game logged]
| trace_final pk game logged gd :
    gd_status gd = "Final" ->
    game_trace [FetchGameData pk; IsBlowout game logged;
                Upsert gd (supabase_row_of gd)].

(** ** Missing run fields made explicit

    [with_zero_runs side v] writes the zero that a missing field stands
    for: an entry without a record for [side] gets one holding
    ["runs": 0], a record without ["runs"] gets it; anything else is
    left as it is. *)

Definition with_zero_runs (side : string) (v : value) : value :=
  match v with
  | JDict d =>
      match dict_get d side with
      | None => JDict ((side, JDict [("runs", JInt 0)]) :: d)
      | Some (JDict t) =>
          match dict_get t "runs" with
          | None => JDict ((side, JDict (("runs", JInt 0) :: t)) :: d)
          | Some _ => v
          end
      | Some _ => v
      end
  | _ => v
  end.

Definition explicit_zeros (v : value) : value :=
  with_zero_runs "away" (with_zero_runs "home" v).

(** ** Sample games *)

Definition scenario_a : list InningLine :=
  [mkInning 3 0; mkInning 2 1; mkInning 0 0;
   mkInning 1 0; mkInning 2 0; mkInning 0 0].

Definition scenario_c : list InningLine :=
  [mkInning 6 0; mkInning 0 0; mkInning 0 0; mkInning 0 0;
   mkInning 0 0; mkInning 0 0; mkInning 0 2; mkInning 9 0].

Definition scenario_b : list InningLine :=
  [mkInning 2 1; mkInning 0 0; mkInning 1 2;
   mkInning 3 0; mkInning 0 0; mkInning 0 0].

(** Scenario B followed by a seventh entry that is not even a dict. *)
Definition scenario_b_game : value :=
  game_with (map encode_inning scenario_b ++ [JStr "rain delay"]).

Definition five_inning_rout : list InningLine :=
  [mkInning 0 4; mkInning 0 0; mkInning 1 3; mkInning 0 0; mkInning 0 2].

Definition scenario_a_extra : list InningLine :=
  scenario_a ++ [mkInning 0 5; mkInning 0 0].

(** One inning, home 7, away run count null; and the same with 0. *)
Definition null_runs_game : value :=
  game_with [JDict [("home", JDict [("runs", JInt 7)]);
                    ("away", JDict [("runs", JNull)])]].

Definition zero_runs_game : value :=
  game_with [JDict [("home", JDict [("runs", JInt 7)]);
                    ("away", JDict [("runs", JInt 0)])]].

(** One inning, home 7, nothing recorded for the away side; and the
    same entry with the away runs written as 0. *)
Definition missing_away_entry : value :=
  JDict [("num", JInt 1); ("home", JDict [("runs", JInt 7)])].

Definition missing_away_game : value := game_with [missing_away_entry].

Definition filled_away_game : value :=
  game_with [JDict [("away", JDict [("runs", JInt 0)]);
                    ("num", JInt 1);
                    ("home", JDict [("runs", JInt 7)])]].

(** A schedule entry in state [state], and a feed whose linescore is
    null. *)
Definition schedule_game (pk : Z) (state : string) : value :=
  JDict [("gamePk", JInt pk);
         ("status", JDict [("codedGameState", JStr state)]);
         ("teams",
          JDict [("away", JDict [("team", JDict [("name", JStr "Mets")]);
                                 ("score", JInt 2)]);
                 ("home", JDict [("team", JDict [("name", JStr "Cubs")]);
                                 ("score", JInt 9)])])].

Definition null_linescore_feed (game_pk : value) : option value :=
  Some (JDict [("liveData", JDict [("linescore", JNull)])]).

(** A feed that answers every request with scenario A, and a schedule of
    one final and one unfinished game. *)
Definition scenario_a_feed (game_pk : value) : option value :=
  Some (JDict [("liveData",
                JDict [("linescore",
                        JDict [("innings",
                                JList (map encode_inning scenario_a))])])]).

Definition sample_schedule (date : string) : option value :=
  Some (JDict [("dates",
                JList [JDict [("date", JStr date);
                              ("games", JList [schedule_game 1 "F";
                                               schedule_game 2 "I"])]])]).

Definition no_feed (game_pk : value) : option value := None.

(** * Properties *)

(** ** Lists, sums and prefixes *)

Lemma firstn_plus_skipn {A} (n m : nat) (l : list A) :
  firstn (n + m) l = firstn n l ++ firstn m (skipn n l).
Proof.
  revert l; induction n as [|n IH]; intros [|x l]; simpl;
    try reflexivity.
  - now rewrite firstn_nil.
  - now rewrite IH.
Qed.

Lemma total_home_app l1 l2 :
  total_home (l1 ++ l2) = total_home l1 + total_home l2.
Proof.
  unfold total_home; induction l1 as [|x l1 IH]; simpl; lia.
Qed.

Lemma total_away_app l1 l2 :
  total_away (l1 ++ l2) = total_away l1 + total_away l2.
Proof.
  unfold total_away; induction l1 as [|x l1 IH]; simpl; lia.
Qed.

Lemma total_home_cons x l : total_home (x :: l) = home_runs x + total_home l.
Proof. reflexivity. Qed.

Lemma total_away_cons x l : total_away (x :: l) = away_runs x + total_away l.
Proof. reflexivity. Qed.

(** ** Reading inning lines *)

Lemma runs_field_inning_runs side v n :
  runs_field side v = Some n -> inning_runs side v = inr (JInt n).
Proof.
  unfold runs_field, inning_runs, py_get.
  destruct v as [| | | | |d]; try discriminate.
  destruct (dict_get d side) as [[| | | | |t]|]; try discriminate.
  cbn [bind ret].
  destruct (dict_get t "runs") as [[| |m| | |]|]; try discriminate.
  now intros [= ->].
Qed.

Lemma inning_line_runs v il :
  inning_line v = Some il ->
  inning_runs "home" v = inr (JInt (home_runs il)) /\
  inning_runs "away" v = inr (JInt (away_runs il)).
Proof.
  unfold inning_line.
  destruct (runs_field "home" v) as [h|] eqn:Eh; try discriminate.
  destruct (runs_field "away" v) as [a|] eqn:Ea; try discriminate.
  intros [= <-]; split; now apply runs_field_inning_runs.
Qed.

Lemma inning_lines_cons v vs l :
  inning_lines (v :: vs) = Some l ->
  exists il r, l = il :: r /\ inning_line v = Some il /\
               inning_lines vs = Some r.
Proof.
  simpl.
  destruct (inning_line v) as [il|]; try discriminate.
  destruct (inning_lines vs) as [r|]; try discriminate.
  intros [= <-]; now exists il, r.
Qed.

Lemma inning_lines_length vs l :
  inning_lines vs = Some l -> List.length l = List.length vs.
Proof.
  revert l; induction vs as [|v vs IH]; intros l H.
  - now injection H as <-.
  - apply inning_lines_cons in H as (il & r & -> & _ & Hr).
    simpl; f_equal; now apply IH.
Qed.

Lemma inning_lines_firstn n vs l :
  inning_lines vs = Some l ->
  inning_lines (firstn n vs) = Some (firstn n l).
Proof.
  revert vs l; induction n as [|n IH]; intros vs l H; [reflexivity|].
  destruct vs as [|v vs].
  - now injection H as <-.
  - apply inning_lines_cons in H as (il & r & -> & Hv & Hr).
    simpl; rewrite Hv, (IH _ _ Hr); reflexivity.
Qed.

Lemma inning_lines_skipn n vs l :
  inning_lines vs = Some l ->
  inning_lines (skipn n vs) = Some (skipn n l).
Proof.
  revert vs l; induction n as [|n IH]; intros vs l H; [exact H|].
  destruct vs as [|v vs].
  - now injection H as <-.
  - apply inning_lines_cons in H as (il & r & -> & Hv & Hr).
    simpl; now apply IH.
Qed.

Lemma inning_lines_encode l : inning_lines (map encode_inning l) = Some l.
Proof.
  induction l as [|[h a] l IH]; [reflexivity|].
  cbn [map inning_lines]; rewrite IH; reflexivity.
Qed.

Lemma game_lines_encode l : game_lines (encode_game l) = Some l.
Proof. unfold game_lines; simpl; apply inning_lines_encode. Qed.

Lemma sum_runs_home vs l :
  inning_lines vs = Some l ->
  forall acc, sum_runs "home" acc vs = inr (acc + total_home l).
Proof.
  revert l; induction vs as [|v vs IH]; intros l H acc.
  - injection H as <-; simpl; unfold ret; f_equal; unfold total_home;
      simpl; lia.
  - apply inning_lines_cons in H as (il & r & -> & Hv & Hr).
    apply inning_line_runs in Hv as [Hh _].
    cbn [sum_runs]; rewrite Hh; cbn [bind int_add ret].
    rewrite (IH _ Hr), total_home_cons; f_equal; lia.
Qed.

Lemma sum_runs_away vs l :
  inning_lines vs = Some l ->
  forall acc, sum_runs "away" acc vs = inr (acc + total_away l).
Proof.
  revert l; induction vs as [|v vs IH]; intros l H acc.
  - injection H as <-; simpl; unfold ret; f_equal; unfold total_away;
      simpl; lia.
  - apply inning_lines_cons in H as (il & r & -> & Hv & Hr).
    apply inning_line_runs in Hv as [_ Ha].
    cbn [sum_runs]; rewrite Ha; cbn [bind int_add ret].
    rewrite (IH _ Hr), total_away_cons; f_equal; lia.
Qed.

(** ** The scan over the later innings *)

Lemma scan_later_step a pre v il rest :
  inning_line v = Some il ->
  scan_later a (total_home pre) (total_away pre) (v :: rest) =
  if lead (pre ++ [il]) <? RUN_THRESHOLD
  then inr (false, Some (set_maintained_lead a false))
  else scan_later a (total_home (pre ++ [il])) (total_away (pre ++ [il]))
         rest.
Proof.
  intros Hv; apply inning_line_runs in Hv as [Hh Ha].
  cbn [scan_later]; rewrite Hh; cbn [bind int_add ret].
  rewrite Ha; cbn [bind int_add ret].
  unfold lead; rewrite total_home_app, total_away_app.
  rewrite !total_home_cons, !total_away_cons.
  change (total_home []) with 0; change (total_away []) with 0.
  now rewrite !Z.add_0_r.
Qed.

(** Either the scan runs to the end with the lead held after every
    inning, or there is a first inning at which the lead falls short,
    and the scan answers there without reading what follows. *)
Lemma scan_later_lines vs r :
  inning_lines vs = Some r ->
  forall a pre,
    (scan_later a (total_home pre) (total_away pre) vs = inr (true, Some a) /\
     forall k, (0 < k <= List.length r)%nat ->
               RUN_THRESHOLD <= lead (pre ++ firstn k r))
    \/
    (exists k, (0 < k <= List.length r)%nat /\
       lead (pre ++ firstn k r) < RUN_THRESHOLD /\
       (forall j, (0 < j < k)%nat ->
                  RUN_THRESHOLD <= lead (pre ++ firstn j r)) /\
       forall junk,
         scan_later a (total_home pre) (total_away pre)
           (firstn k vs ++ junk)
         = inr (false, Some (set_maintained_lead a false))).
Proof.
  revert r; induction vs as [|v vs IH]; intros r H a pre.
  - injection H as <-; left; split; [reflexivity|].
    intros k Hk; simpl in Hk; lia.
  - apply inning_lines_cons in H as (il & r' & -> & Hv & Hr).
    assert (Hcat : forall k, pre ++ firstn (S k) (il :: r')
                             = (pre ++ [il]) ++ firstn k r')
      by (intros k; rewrite <- app_assoc; reflexivity).
    destruct (Z.ltb_spec (lead (pre ++ [il])) RUN_THRESHOLD) as [Hlt|Hge].
    + right; exists 1%nat; repeat split.
      * lia.
      * simpl; lia.
      * exact Hlt.
      * intros j Hj; lia.
      * intros junk; cbn [firstn app].
        rewrite (scan_later_step a pre v il junk Hv).
        apply Z.ltb_lt in Hlt; now rewrite Hlt.
    + destruct (IH r' Hr a (pre ++ [il]))
        as [[Hs Hk]|(k & Hk1 & Hk2 & Hk3 & Hk4)].
      * left; split.
        -- rewrite (scan_later_step a pre v il vs Hv).
           apply Z.ltb_ge in Hge; now rewrite Hge.
        -- intros [|k] Hk'; [lia|]; rewrite Hcat.
           destruct k as [|k]; [now rewrite app_nil_r|].
           apply Hk; simpl in Hk'; lia.
      * right; exists (S k); repeat split.
        -- lia.
        -- simpl; lia.
        -- now rewrite Hcat.
        -- intros [|j] Hj; [lia|]; rewrite Hcat.
           destruct j as [|j]; [now rewrite app_nil_r|].
           apply Hk3; lia.
        -- intros junk; cbn [firstn app].
           rewrite (scan_later_step a pre v il _ Hv).
           apply Z.ltb_ge in Hge; rewrite Hge; apply Hk4.
Qed.

(** ** The evaluator on a game whose first six entries are inning lines *)

Lemma game_innings_get game vs :
  game_innings game = Some vs ->
  exists linescore,
    py_get game "linescore" (JDict []) = inr linescore /\
    py_get linescore "innings" (JList []) = inr (JList vs).
Proof.
  unfold game_innings.
  destruct game as [| | | | |dg]; try discriminate.
  destruct (dict_get dg "linescore") as [[| | | | |dl]|] eqn:E1;
    try discriminate.
  destruct (dict_get dl "innings") as [[| | | |items|]|] eqn:E2;
    try discriminate.
  intros [= ->]; exists (JDict dl); unfold py_get.
  now rewrite E1, E2.
Qed.

Lemma is_blowout_try_lines game vs l6 :
  game_innings game = Some vs ->
  vs <> [] ->
  inning_lines (firstn 6 vs) = Some l6 ->
  let analysis :=
    mkAnalysis (total_home l6) (total_away l6) (lead l6) true in
  is_blowout_try game =
  if lead l6 <? RUN_THRESHOLD
  then inr (false, Some analysis)
  else scan_later analysis (total_home l6) (total_away l6) (skipn 6 vs).
Proof.
  intros Hg Hne H6 analysis; subst analysis.
  apply game_innings_get in Hg as (linescore & E1 & E2).
  unfold is_blowout_try; rewrite E1; cbn [bind]; rewrite E2; cbn [bind].
  destruct vs as [|v vs]; [contradiction|].
  cbn [py_truthy negb py_slice_to py_slice_from py_iter bind ret].
  rewrite (sum_runs_home _ _ H6), (sum_runs_away _ _ H6).
  cbn [bind]; rewrite !Z.add_0_l; reflexivity.
Qed.

Lemma is_blowout_of_try game r :
  is_blowout_try game = inr r -> is_blowout game = ([], inr r).
Proof. unfold is_blowout; now intros ->. Qed.

Lemma is_blowout_try_empty game :
  game_innings game = Some [] -> is_blowout_try game = inr (false, None).
Proof.
  intros Hg; apply game_innings_get in Hg as (linescore & E1 & E2).
  unfold is_blowout_try; rewrite E1; cbn [bind]; rewrite E2; reflexivity.
Qed.

Lemma firstn_min_length {A} (n : nat) (l : list A) :
  firstn (Nat.min n (List.length l)) l = firstn n l.
Proof.
  destruct (Nat.le_ge_cases n (List.length l)) as [H|H].
  - now rewrite Nat.min_l.
  - now rewrite Nat.min_r, firstn_all, firstn_all2.
Qed.

(** The slices of a list cut after its first violating inning. *)
Lemma slices_of_cut {A} (k : nat) (vs junk : list A) :
  (6 < k <= List.length vs)%nat ->
  firstn 6 (firstn k vs ++ junk) = firstn 6 vs /\
  skipn 6 (firstn k vs ++ junk) = firstn (k - 6) (skipn 6 vs) ++ junk.
Proof.
  intros Hk.
  assert (Hlen : List.length (firstn k vs) = k)
    by (rewrite length_firstn; lia).
  split.
  - rewrite firstn_app, Hlen, firstn_firstn.
    replace (6 - k)%nat with 0%nat by lia.
    replace (Nat.min 6 k) with 6%nat by lia.
    now rewrite firstn_0, app_nil_r.
  - rewrite skipn_app, Hlen, skipn_firstn_comm.
    replace (6 - k)%nat with 0%nat by lia.
    reflexivity.
Qed.

(** The three ways the evaluator answers on a game of inning lines. *)
Lemma is_blowout_cases game vs l :
  game_innings game = Some vs ->
  vs <> [] ->
  inning_lines vs = Some l ->
  let l6 := firstn 6 l in
  let a := mkAnalysis (total_home l6) (total_away l6) (lead l6) true in
  (lead l6 < RUN_THRESHOLD /\
   is_blowout game = ([], inr (false, Some a)))
  \/
  (RUN_THRESHOLD <= lead l6 /\
   (forall k, (6 < k <= List.length l)%nat ->
              RUN_THRESHOLD <= lead (firstn k l)) /\
   is_blowout game = ([], inr (true, Some a)))
  \/
  (RUN_THRESHOLD <= lead l6 /\
   exists k, (6 < k <= List.length l)%nat /\
     lead (firstn k l) < RUN_THRESHOLD /\
     (forall j, (6 < j < k)%nat -> RUN_THRESHOLD <= lead (firstn j l)) /\
     forall game' junk,
       game_innings game' = Some (firstn k vs ++ junk) ->
       is_blowout game' =
       ([], inr (false, Some (set_maintained_lead a false)))).
Proof.
  intros Hg Hne Hl l6 a.
  pose proof (inning_lines_firstn 6 _ _ Hl) as H6.
  pose proof (inning_lines_skipn 6 _ _ Hl) as Hr.
  pose proof (inning_lines_length _ _ Hl) as Hlen.
  pose proof (is_blowout_try_lines _ _ _ Hg Hne H6) as Htry.
  cbv zeta in Htry; fold l6 in Htry; fold a in Htry.
  destruct (Z.ltb_spec (lead l6) RUN_THRESHOLD) as [Hlt|Hge].
  { left; split; [exact Hlt|]; now apply is_blowout_of_try. }
  right.
  destruct (scan_later_lines _ _ Hr a l6)
    as [[Hs Hk]|(k & Hk1 & Hk2 & Hk3 & Hk4)].
  - left; split; [exact Hge|]; split.
    + intros k Hk'.
      replace k with (6 + (k - 6))%nat by lia.
      rewrite firstn_plus_skipn; apply Hk.
      rewrite length_skipn; lia.
    + apply is_blowout_of_try; now rewrite Htry.
  - right; split; [exact Hge|].
    rewrite length_skipn in Hk1.
    exists (6 + k)%nat; repeat split.
    + lia.
    + lia.
    + now rewrite firstn_plus_skipn.
    + intros j Hj.
      replace j with (6 + (j - 6))%nat by lia.
      rewrite firstn_plus_skipn; apply Hk3; lia.
    + intros game' junk Hg'.
      assert (Hcut : (6 < 6 + k <= List.length vs)%nat) by lia.
      destruct (slices_of_cut (6 + k) vs junk Hcut) as [Hf Hs].
      assert (Hne' : firstn (6 + k) vs ++ junk <> []).
      { destruct vs as [|v vs']; [contradiction|]; discriminate. }
      assert (H6' : inning_lines (firstn 6 (firstn (6 + k) vs ++ junk))
                    = Some l6) by (now rewrite Hf).
      pose proof (is_blowout_try_lines _ _ _ Hg' Hne' H6') as Htry'.
      cbv zeta in Htry'; fold a in Htry'.
      apply is_blowout_of_try; rewrite Htry'.
      apply Z.ltb_ge in Hge; rewrite Hge, Hs.
      replace (6 + k - 6)%nat with k by lia.
      apply Hk4.
Qed.

(** ** The blowout rule *)

(** C1: on a game of inning lines the evaluator returns, and its boolean
    is true exactly when the list is non-empty, the absolute differential
    over the first min(6, length) innings is at least the threshold, and
    the absolute differential of the running totals is still at least the
    threshold after every later inning. *)
Theorem is_blowout_iff game l :
  game_lines game = Some l ->
  exists b a,
    is_blowout game = ([], inr (b, a)) /\
    (b = true <->
     l <> [] /\
     RUN_THRESHOLD <= lead (firstn (Nat.min 6 (List.length l)) l) /\
     forall k, (6 < k <= List.length l)%nat ->
               RUN_THRESHOLD <= lead (firstn k l)).
Proof.
  unfold game_lines.
  destruct (game_innings game) as [vs|] eqn:Hg; [|discriminate].
  intros Hl; rewrite firstn_min_length.
  destruct vs as [|v vs'] eqn:Evs.
  - injection Hl as <-.
    exists false, None; split.
    + apply is_blowout_of_try, is_blowout_try_empty, Hg.
    + split; [discriminate|]; intros [H _]; now contradiction H.
  - assert (Hne : v :: vs' <> []) by discriminate.
    assert (Hl' : l <> []).
    { apply inning_lines_cons in Hl as (il & r & -> & _); discriminate. }
    destruct (is_blowout_cases _ _ _ Hg Hne Hl)
      as [[Hlt E]|[(Hge & Hk & E)|(Hge & k & Hk1 & Hk2 & Hk3 & E)]].
    + eexists _, _; split; [exact E|].
      split; [discriminate|]; intros (_ & H & _); lia.
    + eexists _, _; split; [exact E|].
      split; [now intros _|reflexivity].
    + eexists _, _; split.
      * apply (E game (skipn k (v :: vs'))); now rewrite firstn_skipn.
      * split; [discriminate|]; intros (_ & _ & H).
        specialize (H k Hk1); lia.
Qed.

Lemma is_blowout_iff_witness :
  exists b a,
    is_blowout (encode_game scenario_a) = ([], inr (b, a)) /\
    (b = true <->
     scenario_a <> [] /\
     RUN_THRESHOLD
       <= lead (firstn (Nat.min 6 (List.length scenario_a)) scenario_a) /\
     forall k, (6 < k <= List.length scenario_a)%nat ->
               RUN_THRESHOLD <= lead (firstn k scenario_a)).
Proof.
  apply (is_blowout_iff (encode_game scenario_a) scenario_a).
  reflexivity.
Defined.

(** C2: when the lead through inning 6 reaches the threshold and some
    later inning brings the running lead below it, the evaluator returns
    false with the through-6 figures and maintained_lead = false; the
    answer is fixed at the first such inning: whatever follows it in the
    list, readable or not, is never read and changes nothing. *)
Theorem is_blowout_lead_lost game vs l :
  game_innings game = Some vs ->
  inning_lines vs = Some l ->
  RUN_THRESHOLD <= lead (firstn 6 l) ->
  (exists k, (6 < k <= List.length l)%nat /\
             lead (firstn k l) < RUN_THRESHOLD) ->
  let a := mkAnalysis (total_home (firstn 6 l)) (total_away (firstn 6 l))
                      (lead (firstn 6 l)) false in
  is_blowout game = ([], inr (false, Some a)) /\
  exists k, (6 < k <= List.length l)%nat /\
    lead (firstn k l) < RUN_THRESHOLD /\
    (forall j, (6 < j < k)%nat -> RUN_THRESHOLD <= lead (firstn j l)) /\
    forall game' junk,
      game_innings game' = Some (firstn k vs ++ junk) ->
      is_blowout game' = ([], inr (false, Some a)).
Proof.
  intros Hg Hl Hge (k0 & Hk0 & Hlt0) a.
  assert (Hne : vs <> []).
  { intros ->; injection Hl as <-; simpl in Hk0; lia. }
  destruct (is_blowout_cases _ _ _ Hg Hne Hl)
    as [[Hlt _]|[(_ & Hk & _)|(_ & k & Hk1 & Hk2 & Hk3 & E)]].
  - lia.
  - specialize (Hk k0 Hk0); lia.
  - split.
    + apply (E game (skipn k vs)); now rewrite firstn_skipn.
    + exists k; repeat split; try assumption; lia.
Qed.

Lemma is_blowout_lead_lost_witness :
  let a := mkAnalysis (total_home (firstn 6 scenario_c))
                      (total_away (firstn 6 scenario_c))
                      (lead (firstn 6 scenario_c)) false in
  is_blowout (encode_game scenario_c) = ([], inr (false, Some a)) /\
  exists k, (6 < k <= List.length scenario_c)%nat /\
    lead (firstn k scenario_c) < RUN_THRESHOLD /\
    (forall j, (6 < j < k)%nat ->
               RUN_THRESHOLD <= lead (firstn j scenario_c)) /\
    forall game' junk,
      game_innings game'
      = Some (firstn k (map encode_inning scenario_c) ++ junk) ->
      is_blowout game' = ([], inr (false, Some a)).
Proof.
  apply (is_blowout_lead_lost (encode_game scenario_c)
           (map encode_inning scenario_c) scenario_c).
  - reflexivity.
  - reflexivity.
  - vm_compute; discriminate.
  - exists 7%nat; split; [simpl; lia | reflexivity].
Defined.

(** C3: when the first min(6, length) entries of a non-empty innings
    list are inning lines whose absolute differential is below the
    threshold, the evaluator returns false with maintained_lead = true,
    and every game with the same first six entries gets the same answer,
    whatever its later entries hold. *)
Theorem is_blowout_short_lead game vs l6 :
  game_innings game = Some vs ->
  vs <> [] ->
  inning_lines (firstn 6 vs) = Some l6 ->
  lead l6 < RUN_THRESHOLD ->
  is_blowout game =
    ([], inr (false, Some (mkAnalysis (total_home l6) (total_away l6)
                                      (lead l6) true))) /\
  forall game' vs',
    game_innings game' = Some vs' ->
    firstn 6 vs' = firstn 6 vs ->
    is_blowout game' = is_blowout game.
Proof.
  intros Hg Hne H6 Hlt.
  assert (Hres : forall g ws, game_innings g = Some ws ->
            firstn 6 ws = firstn 6 vs ->
            is_blowout g =
            ([], inr (false, Some (mkAnalysis (total_home l6)
                        (total_away l6) (lead l6) true)))).
  { intros g ws Hgw Hw.
    assert (Hnw : ws <> []).
    { intros ->; destruct vs; [contradiction|discriminate]. }
    rewrite <- Hw in H6.
    apply is_blowout_of_try.
    rewrite (is_blowout_try_lines _ _ _ Hgw Hnw H6).
    apply Z.ltb_lt in Hlt; now rewrite Hlt. }
  split.
  - now apply (Hres game vs).
  - intros game' vs' Hg' Hv.
    now rewrite (Hres game' vs' Hg' Hv), (Hres game vs Hg eq_refl).
Qed.

Lemma is_blowout_short_lead_witness :
  is_blowout scenario_b_game =
    ([], inr (false, Some (mkAnalysis 6 3 3 true))) /\
  forall game' vs',
    game_innings game' = Some vs' ->
    firstn 6 vs' =
      firstn 6 (map encode_inning scenario_b ++ [JStr "rain delay"]) ->
    is_blowout game' = is_blowout scenario_b_game.
Proof.
  apply (is_blowout_short_lead scenario_b_game
           (map encode_inning scenario_b ++ [JStr "rain delay"])
           scenario_b).
  - reflexivity.
  - discriminate.
  - reflexivity.
  - reflexivity.
Defined.

(** C4: a game of at least one and fewer than six inning lines is a
    blowout exactly when the absolute lead over all of them reaches the
    threshold, and its analysis has maintained_lead = true. *)
Theorem is_blowout_short_game game l :
  game_lines game = Some l ->
  (0 < List.length l < 6)%nat ->
  is_blowout game =
    ([], inr (RUN_THRESHOLD <=? lead l,
              Some (mkAnalysis (total_home l) (total_away l) (lead l)
                               true))).
Proof.
  unfold game_lines.
  destruct (game_innings game) as [vs|] eqn:Hg; [|discriminate].
  intros Hl Hlen.
  assert (Hne : vs <> []).
  { intros ->; injection Hl as <-; simpl in Hlen; lia. }
  destruct (is_blowout_cases _ _ _ Hg Hne Hl)
    as [[Hlt E]|[(Hge & _ & E)|(_ & k & Hk1 & _)]].
  - rewrite firstn_all2 in Hlt, E by lia.
    apply Z.leb_gt in Hlt; now rewrite Hlt.
  - rewrite firstn_all2 in Hge, E by lia.
    apply Z.leb_le in Hge; now rewrite Hge.
  - lia.
Qed.

Lemma is_blowout_short_game_witness :
  is_blowout (encode_game five_inning_rout) =
    ([], inr (true, Some (mkAnalysis 1 9 8 true))).
Proof.
  apply (is_blowout_short_game (encode_game five_inning_rout)
           five_inning_rout).
  - reflexivity.
  - simpl; lia.
Defined.

(** C8: a game whose innings list is empty gets (false, empty analysis),
    with nothing logged. *)
Theorem is_blowout_no_innings game :
  game_innings game = Some [] ->
  is_blowout game = ([], inr (false, None)).
Proof.
  intros Hg; apply is_blowout_of_try, is_blowout_try_empty, Hg.
Qed.

Lemma is_blowout_no_innings_witness :
  is_blowout (encode_game []) = ([], inr (false, None)).
Proof.
  apply (is_blowout_no_innings (encode_game [])).
  reflexivity.
Defined.

(** ** The analysis record, on any document *)

Lemma bind_inr {A B} (m : py A) (k : A -> py B) (b : B) :
  bind m k = inr b -> exists a, m = inr a /\ k a = inr b.
Proof. destruct m as [e|a]; [discriminate|]; intros H; now exists a. Qed.

Ltac bind_inv H :=
  let x := fresh "x" in
  let E := fresh "E" in
  apply bind_inr in H as (x & E & H).

(** The scan leaves the through-6 fields alone, and answers true only
    with the record it was given. *)
Lemma scan_later_frame a0 items :
  forall h aw b a,
    scan_later a0 h aw items = inr (b, Some a) ->
    through_6_home a = through_6_home a0 /\
    through_6_away a = through_6_away a0 /\
    through_6_lead a = through_6_lead a0 /\
    (b = true -> a = a0).
Proof.
  induction items as [|i rest IH]; intros h aw b a H.
  - injection H as <- <-; auto.
  - cbn [scan_later] in H.
    do 4 bind_inv H.
    destruct (Z.abs (x0 - x2) <? RUN_THRESHOLD).
    + injection H as <- <-; repeat split; discriminate.
    + exact (IH _ _ _ _ H).
Qed.

Lemma is_blowout_try_analysis game b a :
  is_blowout_try game = inr (b, Some a) ->
  through_6_lead a = Z.abs (through_6_home a - through_6_away a) /\
  (b = true -> maintained_lead a = true).
Proof.
  unfold is_blowout_try; intros H.
  do 2 bind_inv H.
  destruct (negb (py_truthy x0)); [discriminate|].
  do 6 bind_inv H.
  destruct (Z.abs (x3 - x6) <? RUN_THRESHOLD).
  - injection H as <- <-; split; [reflexivity|discriminate].
  - do 2 bind_inv H.
    apply scan_later_frame in H as (Hh & Ha & Hl & Hb).
    rewrite Hh, Ha, Hl; split; [reflexivity|].
    intros Hb'; now rewrite (Hb Hb').
Qed.

(** C9: whenever the evaluator returns a non-empty analysis, its
    through_6_lead is the absolute difference of through_6_home and
    through_6_away, and a true result carries maintained_lead = true. *)
Theorem is_blowout_analysis_consistent game logged b a :
  is_blowout game = (logged, inr (b, Some a)) ->
  through_6_lead a = Z.abs (through_6_home a - through_6_away a) /\
  (b = true -> maintained_lead a = true).
Proof.
  unfold is_blowout.
  destruct (is_blowout_try game) as [e|[b' a']] eqn:E.
  - destruct (handled e); discriminate.
  - intros [= _ -> ->]; exact (is_blowout_try_analysis _ _ _ E).
Qed.

Lemma is_blowout_analysis_consistent_witness :
  through_6_lead (mkAnalysis 6 0 6 false) =
    Z.abs (through_6_home (mkAnalysis 6 0 6 false)
           - through_6_away (mkAnalysis 6 0 6 false)) /\
  (false = true -> maintained_lead (mkAnalysis 6 0 6 false) = true).
Proof.
  apply (is_blowout_analysis_consistent (encode_game scenario_c) []
           false (mkAnalysis 6 0 6 false)).
  reflexivity.
Defined.

(** C10: two games of at least six inning lines each that agree on the
    first six get analysis records with the same through_6_home,
    through_6_away and through_6_lead, namely the totals and the lead of
    those six innings. *)
Theorem through_6_frame game1 game2 l1 l2 :
  game_lines game1 = Some l1 ->
  game_lines game2 = Some l2 ->
  (6 <= List.length l1)%nat ->
  (6 <= List.length l2)%nat ->
  firstn 6 l1 = firstn 6 l2 ->
  exists b1 a1 b2 a2,
    is_blowout game1 = ([], inr (b1, Some a1)) /\
    is_blowout game2 = ([], inr (b2, Some a2)) /\
    through_6_home a1 = through_6_home a2 /\
    through_6_away a1 = through_6_away a2 /\
    through_6_lead a1 = through_6_lead a2 /\
    through_6_home a1 = total_home (firstn 6 l1) /\
    through_6_away a1 = total_away (firstn 6 l1) /\
    through_6_lead a1 = lead (firstn 6 l1).
Proof.
  assert (Hone : forall game l, game_lines game = Some l ->
            (6 <= List.length l)%nat ->
            exists b m,
              is_blowout game =
              ([], inr (b, Some (mkAnalysis (total_home (firstn 6 l))
                                  (total_away (firstn 6 l))
                                  (lead (firstn 6 l)) m)))).
  { intros game l; unfold game_lines.
    destruct (game_innings game) as [vs|] eqn:Hg; [|discriminate].
    intros Hl Hlen.
    assert (Hne : vs <> []).
    { intros ->; injection Hl as <-; simpl in Hlen; lia. }
    destruct (is_blowout_cases _ _ _ Hg Hne Hl)
      as [[_ E]|[(_ & _ & E)|(_ & k & _ & _ & _ & E)]].
    - now exists false, true.
    - now exists true, true.
    - exists false, false.
      apply (E game (skipn k vs)); now rewrite firstn_skipn. }
  intros H1 H2 Hlen1 Hlen2 Heq.
  destruct (Hone _ _ H1 Hlen1) as (b1 & m1 & E1).
  destruct (Hone _ _ H2 Hlen2) as (b2 & m2 & E2).
  rewrite <- Heq in E2.
  eexists _, _, _, _; split; [exact E1|]; split; [exact E2|].
  repeat split.
Qed.

Lemma through_6_frame_witness :
  exists b1 a1 b2 a2,
    is_blowout (encode_game scenario_a) = ([], inr (b1, Some a1)) /\
    is_blowout (encode_game scenario_a_extra) = ([], inr (b2, Some a2)) /\
    through_6_home a1 = through_6_home a2 /\
    through_6_away a1 = through_6_away a2 /\
    through_6_lead a1 = through_6_lead a2 /\
    through_6_home a1 = total_home (firstn 6 scenario_a) /\
    through_6_away a1 = total_away (firstn 6 scenario_a) /\
    through_6_lead a1 = lead (firstn 6 scenario_a).
Proof.
  apply (through_6_frame (encode_game scenario_a)
           (encode_game scenario_a_extra) scenario_a scenario_a_extra).
  - reflexivity.
  - reflexivity.
  - simpl; lia.
  - simpl; lia.
  - reflexivity.
Defined.

(** ** Structural errors *)

(** C5: the handler of [is_blowout] names KeyError and TypeError only.
    With a null linescore the first lookup on it raises AttributeError,
    which the evaluator neither logs nor turns into (false, empty); in
    the poll cycle the exception ends the loop, so the next game of the
    day is never reached. *)
Theorem is_blowout_attribute_error_escapes :
  is_blowout (JDict [("linescore", JNull)]) = ([], inl AttributeError) /\
  is_blowout null_runs_game =
    ([LogError "Error processing game data" TypeError],
     inr (false, None)) /\
  exists game',
    check_games null_linescore_feed "2025-04-01"
      [schedule_game 1 "F"; schedule_game 2 "F"] []
    = ([FetchGameData (JInt 1); IsBlowout game' []], inl AttributeError).
Proof.
  split; [reflexivity|]; split; [reflexivity|].
  eexists; reflexivity.
Qed.

(** ** Missing and malformed run fields *)

Lemma inning_runs_with_zero_same side v :
  inning_runs side (with_zero_runs side v) = inning_runs side v.
Proof.
  destruct v as [| | | | |d]; try reflexivity.
  unfold with_zero_runs.
  destruct (dict_get d side) as [[| | | | |t]|] eqn:E; try reflexivity.
  - destruct (dict_get t "runs") as [r|] eqn:E2; [reflexivity|].
    unfold inning_runs, py_get; cbn [dict_get].
    rewrite String.eqb_refl, E; cbn [bind ret dict_get String.eqb].
    now rewrite E2.
  - unfold inning_runs, py_get; cbn [dict_get].
    now rewrite String.eqb_refl, E.
Qed.

Lemma inning_runs_with_zero_other side side' v :
  side <> side' ->
  inning_runs side' (with_zero_runs side v) = inning_runs side' v.
Proof.
  intros Hne; apply String.eqb_neq in Hne.
  destruct v as [| | | | |d]; try reflexivity.
  unfold with_zero_runs.
  destruct (dict_get d side) as [[| | | | |t]|]; try reflexivity.
  - destruct (dict_get t "runs"); [reflexivity|].
    unfold inning_runs, py_get; cbn [dict_get]; now rewrite Hne.
  - unfold inning_runs, py_get; cbn [dict_get]; now rewrite Hne.
Qed.

Lemma inning_runs_explicit_zeros_home v :
  inning_runs "home" (explicit_zeros v) = inning_runs "home" v.
Proof.
  unfold explicit_zeros.
  rewrite inning_runs_with_zero_other by discriminate.
  apply inning_runs_with_zero_same.
Qed.

Lemma inning_runs_explicit_zeros_away v :
  inning_runs "away" (explicit_zeros v) = inning_runs "away" v.
Proof.
  unfold explicit_zeros.
  rewrite inning_runs_with_zero_same.
  apply inning_runs_with_zero_other; discriminate.
Qed.

(** A field that is missing reads as the integer 0. *)
Lemma missing_side_reads_zero side d :
  dict_get d side = None -> inning_runs side (JDict d) = inr (JInt 0).
Proof. unfold inning_runs, py_get; now intros ->. Qed.

Lemma missing_runs_reads_zero side d t :
  dict_get d side = Some (JDict t) -> dict_get t "runs" = None ->
  inning_runs side (JDict d) = inr (JInt 0).
Proof.
  unfold inning_runs, py_get; intros -> Ht; cbn [bind ret].
  now rewrite Ht.
Qed.

Section Extensional.

(** The evaluator sees an entry only through [inning_runs]. *)
Variable f : value -> value.
Hypothesis f_home : forall v, inning_runs "home" (f v) = inning_runs "home" v.
Hypothesis f_away : forall v, inning_runs "away" (f v) = inning_runs "away" v.

Lemma sum_runs_home_ext items :
  forall acc, sum_runs "home" acc (map f items) = sum_runs "home" acc items.
Proof.
  induction items as [|i rest IH]; intros acc; [reflexivity|].
  cbn [map sum_runs]; rewrite f_home.
  destruct (inning_runs "home" i) as [e|x]; [reflexivity|].
  cbn [bind]; destruct (int_add acc x) as [e|acc']; [reflexivity|].
  apply IH.
Qed.

Lemma sum_runs_away_ext items :
  forall acc, sum_runs "away" acc (map f items) = sum_runs "away" acc items.
Proof.
  induction items as [|i rest IH]; intros acc; [reflexivity|].
  cbn [map sum_runs]; rewrite f_away.
  destruct (inning_runs "away" i) as [e|x]; [reflexivity|].
  cbn [bind]; destruct (int_add acc x) as [e|acc']; [reflexivity|].
  apply IH.
Qed.

Lemma scan_later_ext a items :
  forall h aw,
    scan_later a h aw (map f items) = scan_later a h aw items.
Proof.
  induction items as [|i rest IH]; intros h aw; [reflexivity|].
  cbn [map scan_later]; rewrite f_home, f_away.
  destruct (inning_runs "home" i) as [e|x]; [reflexivity|].
  cbn [bind]; destruct (int_add h x) as [e|h']; [reflexivity|].
  cbn [bind]; destruct (inning_runs "away" i) as [e|y]; [reflexivity|].
  cbn [bind]; destruct (int_add aw y) as [e|aw']; [reflexivity|].
  cbn [bind]; now rewrite IH.
Qed.

Lemma is_blowout_try_ext vs :
  is_blowout_try (game_with (map f vs)) = is_blowout_try (game_with vs).
Proof.
  destruct vs as [|v vs]; [reflexivity|].
  unfold is_blowout_try, game_with.
  cbn [py_get dict_get String.eqb Ascii.eqb Bool.eqb bind ret].
  change (f v :: map f vs) with (map f (v :: vs)).
  generalize (v :: vs); intros ws.
  cbn [py_truthy py_slice_to py_slice_from py_iter bind ret].
  rewrite firstn_map, skipn_map.
  rewrite sum_runs_home_ext, sum_runs_away_ext.
  replace (match map f ws with [] => false | _ :: _ => true end)
    with (match ws with [] => false | _ :: _ => true end)
    by (now destruct ws).
  destruct ws as [|w ws']; [reflexivity|]; cbn [negb].
  destruct (sum_runs "home" 0 (firstn 6 (w :: ws'))) as [e|h];
    [reflexivity|]; cbn [bind].
  destruct (sum_runs "away" 0 (firstn 6 (w :: ws'))) as [e|aw];
    [reflexivity|]; cbn [bind].
  destruct (Z.abs (h - aw) <? RUN_THRESHOLD); [reflexivity|].
  apply scan_later_ext.
Qed.

End Extensional.

Lemma is_blowout_try_game_with game vs :
  game_innings game = Some vs ->
  is_blowout_try game = is_blowout_try (game_with vs).
Proof.
  intros Hg; apply game_innings_get in Hg as (linescore & E1 & E2).
  unfold is_blowout_try at 1; rewrite E1; cbn [bind]; rewrite E2.
  reflexivity.
Qed.

(** C6, as stated, fails on a malformed field: a null run count is not
    read as zero.  The addition raises TypeError and the evaluator
    answers (false, empty analysis), where an explicit 0 gives a
    blowout. *)
Lemma malformed_runs_not_zero :
  is_blowout null_runs_game =
    ([LogError "Error processing game data" TypeError],
     inr (false, None)) /\
  is_blowout zero_runs_game =
    ([], inr (true, Some (mkAnalysis 7 0 7 true))) /\
  is_blowout null_runs_game <> is_blowout zero_runs_game.
Proof.
  split; [reflexivity|]; split; [reflexivity|]; discriminate.
Qed.

(** C6, amended: a run field that is missing (no record for the team, or
    no runs key in it) is read as zero, in the sum through inning 6 and
    in the later scan alike: the evaluator returns on a game exactly what
    it returns on the game with every missing field written as 0. *)
Theorem missing_runs_as_zero game game' vs :
  game_innings game = Some vs ->
  game_innings game' = Some (map explicit_zeros vs) ->
  is_blowout game' = is_blowout game.
Proof.
  intros Hg Hg'; unfold is_blowout.
  rewrite (is_blowout_try_game_with _ _ Hg).
  rewrite (is_blowout_try_game_with _ _ Hg').
  rewrite (is_blowout_try_ext explicit_zeros
             inning_runs_explicit_zeros_home
             inning_runs_explicit_zeros_away).
  reflexivity.
Qed.

Lemma missing_runs_as_zero_witness :
  is_blowout filled_away_game = is_blowout missing_away_game.
Proof.
  apply (missing_runs_as_zero missing_away_game filled_away_game
           [missing_away_entry]).
  - reflexivity.
  - reflexivity.
Defined.

(** ** Games that are not final *)

Lemma io_bind_lift_inl {A B} (e : exn) (k : A -> io B) :
  io_bind (io_lift (inl e)) k = ([], inl e).
Proof. reflexivity. Qed.

Lemma io_bind_lift_inr {A B} (a : A) (k : A -> io B) :
  io_bind (io_lift (inr a)) k = k a.
Proof. unfold io_bind, io_lift; now destruct (k a). Qed.

Lemma is_final_false status :
  status <> JStr "F" -> is_final status = false.
Proof.
  destruct status as [| | |s| |]; try reflexivity.
  intros H; simpl; destruct (String.eqb_spec s "F") as [->|]; congruence.
Qed.

(** C7: for a game whose coded state is not "F", the loop body makes no
    detail request and does not run the evaluator: all it can do is one
    upsert of a summary with status "In Progress", is_blowout false and an
    empty analysis (so the row has neither lead figure).  That upsert is
    made whenever the entry has a truthy gamePk and its team fields can
    be read; the game is not added to the day's results. *)
Theorem check_game_not_final feed date game status :
  coded_game_state game = inr status ->
  status <> JStr "F" ->
  (forall e, In e (fst (check_game feed date game)) ->
     exists gd,
       e = Upsert gd (supabase_row_of gd) /\
       gd_status gd = "In Progress" /\
       gd_is_blowout gd = false /\
       gd_analysis gd = None /\
       row_through_6_lead (supabase_row_of gd) = None /\
       row_maintained_lead (supabase_row_of gd) = None) /\
  (forall game_pk away_team home_team away_score home_score,
     py_get game "gamePk" JNull = inr game_pk ->
     py_truthy game_pk = true ->
     team_name "away" game = inr away_team ->
     team_name "home" game = inr home_team ->
     team_score "away" game = inr away_score ->
     team_score "home" game = inr home_score ->
     let gd := mkGameData game_pk date away_team home_team away_score
                          home_score "In Progress" false None in
     check_game feed date game
     = ([Upsert gd (supabase_row_of gd)], inr None)).
Proof.
  intros Hst Hnf; apply is_final_false in Hnf.
  split.
  - unfold check_game.
    destruct (py_get game "gamePk" JNull) as [e|pk];
      [rewrite io_bind_lift_inl; intros ? []|rewrite io_bind_lift_inr].
    destruct (py_truthy pk); cbn [negb]; [|intros ? []].
    destruct (team_name "away" game) as [e|at_];
      [rewrite io_bind_lift_inl; intros ? []|rewrite io_bind_lift_inr].
    destruct (team_name "home" game) as [e|ht];
      [rewrite io_bind_lift_inl; intros ? []|rewrite io_bind_lift_inr].
    destruct (team_score "away" game) as [e|as_];
      [rewrite io_bind_lift_inl; intros ? []|rewrite io_bind_lift_inr].
    destruct (team_score "home" game) as [e|hs];
      [rewrite io_bind_lift_inl; intros ? []|rewrite io_bind_lift_inr].
    rewrite Hst, io_bind_lift_inr, Hnf; cbn.
    intros e [<-|[]]; eexists; repeat split.
  - intros pk at_ ht as_ hs Hpk Htr Hat Hht Has Hhs gd.
    unfold check_game.
    rewrite Hpk, io_bind_lift_inr, Htr; cbn [negb].
    rewrite Hat, io_bind_lift_inr, Hht, io_bind_lift_inr.
    rewrite Has, io_bind_lift_inr, Hhs, io_bind_lift_inr.
    rewrite Hst, io_bind_lift_inr, Hnf; reflexivity.
Qed.

Lemma check_game_not_final_witness :
  (forall e,
     In e (fst (check_game null_linescore_feed "2025-04-01"
                  (schedule_game 7 "I"))) ->
     exists gd,
       e = Upsert gd (supabase_row_of gd) /\
       gd_status gd = "In Progress" /\
       gd_is_blowout gd = false /\
       gd_analysis gd = None /\
       row_through_6_lead (supabase_row_of gd) = None /\
       row_maintained_lead (supabase_row_of gd) = None) /\
  (forall game_pk away_team home_team away_score home_score,
     py_get (schedule_game 7 "I") "gamePk" JNull = inr game_pk ->
     py_truthy game_pk = true ->
     team_name "away" (schedule_game 7 "I") = inr away_team ->
     team_name "home" (schedule_game 7 "I") = inr home_team ->
     team_score "away" (schedule_game 7 "I") = inr away_score ->
     team_score "home" (schedule_game 7 "I") = inr home_score ->
     let gd := mkGameData game_pk "2025-04-01" away_team home_team
                          away_score home_score "In Progress" false None in
     check_game null_linescore_feed "2025-04-01" (schedule_game 7 "I")
     = ([Upsert gd (supabase_row_of gd)], inr None)).
Proof.
  apply (check_game_not_final null_linescore_feed "2025-04-01"
           (schedule_game 7 "I") (JStr "I")).
  - reflexivity.
  - discriminate.
Defined.

(** * Further properties of the evaluator *)

(** ** The closed form of the rule *)

Lemma keeps_lead_spec l :
  keeps_lead l = true <->
  forall k, (6 < k <= List.length l)%nat ->
            RUN_THRESHOLD <= lead (firstn k l).
Proof.
  unfold keeps_lead; rewrite forallb_forall; split.
  - intros H k Hk; apply Z.leb_le, H, in_seq; lia.
  - intros H k Hk; apply in_seq in Hk; apply Z.leb_le, H; lia.
Qed.

Lemma is_blowout_verdict game l :
  game_lines game = Some l -> is_blowout game = ([], inr (verdict l)).
Proof.
  unfold game_lines.
  destruct (game_innings game) as [vs|] eqn:Hg; [|discriminate].
  intros Hl; destruct vs as [|v vs'] eqn:Evs.
  - injection Hl as <-; apply is_blowout_of_try, is_blowout_try_empty, Hg.
  - assert (Hne : v :: vs' <> []) by discriminate.
    destruct (is_blowout_cases _ _ _ Hg Hne Hl)
      as [[Hlt E]|[(Hge & Hk & E)|(Hge & k & Hk1 & Hk2 & Hk3 & E)]];
      apply inning_lines_cons in Hl as (il & r & -> & _);
      unfold verdict.
    + apply Z.ltb_lt in Hlt; rewrite Hlt; exact E.
    + apply Z.ltb_ge in Hge; rewrite Hge.
      apply keeps_lead_spec in Hk; rewrite Hk; exact E.
    + apply Z.ltb_ge in Hge; rewrite Hge.
      assert (Hf : keeps_lead (il :: r) = false).
      { destruct (keeps_lead (il :: r)) eqn:Ek; [|reflexivity].
        rewrite keeps_lead_spec in Ek; specialize (Ek k Hk1); lia. }
      rewrite Hf.
      apply (E game (skipn k (v :: vs'))); now rewrite firstn_skipn.
Qed.

Lemma verdict_true l a :
  verdict l = (true, a) ->
  l <> [] /\ RUN_THRESHOLD <= lead (firstn 6 l) /\ keeps_lead l = true /\
  a = Some (mkAnalysis (total_home (firstn 6 l)) (total_away (firstn 6 l))
                       (lead (firstn 6 l)) true).
Proof.
  destruct l as [|x l]; [discriminate|]; unfold verdict.
  destruct (Z.ltb_spec (lead (firstn 6 (x :: l))) RUN_THRESHOLD);
    [discriminate|].
  intros [= Hk <-]; rewrite Hk; repeat split; try assumption; discriminate.
Qed.

(** X1: a game of inning lines that is reported as a blowout ends with
    an absolute differential of at least the threshold over the whole
    game. *)
Theorem blowout_final_margin game l logged a :
  game_lines game = Some l ->
  is_blowout game = (logged, inr (true, a)) ->
  RUN_THRESHOLD <= lead l.
Proof.
  intros Hl E; rewrite (is_blowout_verdict _ _ Hl) in E.
  injection E as _ E.
  apply verdict_true in E as (_ & H6 & Hk & _).
  destruct (Nat.le_gt_cases (List.length l) 6) as [Hs|Hs].
  - now rewrite firstn_all2 in H6.
  - rewrite keeps_lead_spec in Hk.
    specialize (Hk (List.length l)); rewrite firstn_all in Hk; apply Hk; lia.
Qed.

Lemma blowout_final_margin_witness : RUN_THRESHOLD <= lead scenario_a.
Proof.
  apply (blowout_final_margin (encode_game scenario_a) scenario_a []
           (Some (mkAnalysis 8 1 7 true))).
  - reflexivity.
  - reflexivity.
Defined.

Lemma verdict_cons l :
  l <> [] ->
  verdict l =
  if lead (firstn 6 l) <? RUN_THRESHOLD
  then (false,
        Some (mkAnalysis (total_home (firstn 6 l)) (total_away (firstn 6 l))
                         (lead (firstn 6 l)) true))
  else (keeps_lead l,
        Some (mkAnalysis (total_home (firstn 6 l)) (total_away (firstn 6 l))
                         (lead (firstn 6 l)) (keeps_lead l))).
Proof. destruct l; [contradiction|reflexivity]. Qed.

(** X2: a lead once lost is lost for good.  If a game of inning lines is
    a blowout, so is the game cut after any inning from the sixth on,
    with the same analysis; read the other way, a game that is not a
    blowout after [n >= 6] innings cannot become one later. *)
Theorem blowout_prefix game game' l n logged a :
  game_lines game = Some l ->
  game_lines game' = Some (firstn n l) ->
  (6 <= n)%nat ->
  is_blowout game = (logged, inr (true, a)) ->
  is_blowout game' = ([], inr (true, a)).
Proof.
  intros Hl Hl' Hn E.
  rewrite (is_blowout_verdict _ _ Hl) in E; injection E as _ E.
  rewrite (is_blowout_verdict _ _ Hl'); do 2 f_equal.
  apply verdict_true in E as (Hne & H6 & Hk & ->).
  assert (Hne' : firstn n l <> []).
  { destruct l; [contradiction|]; destruct n; [lia|discriminate]. }
  rewrite (verdict_cons _ Hne'), firstn_firstn.
  replace (Nat.min 6 n) with 6%nat by lia.
  apply Z.ltb_ge in H6; rewrite H6.
  assert (Hk' : keeps_lead (firstn n l) = true).
  { apply keeps_lead_spec; intros k Hk1.
    rewrite length_firstn in Hk1.
    rewrite firstn_firstn.
    replace (Nat.min k n) with k by lia.
    rewrite keeps_lead_spec in Hk; apply Hk; lia. }
  now rewrite Hk'.
Qed.

Lemma blowout_prefix_witness :
  is_blowout
    (encode_game (firstn 7 (scenario_a ++ [scoreless; scoreless]))) =
  ([], inr (true, Some (mkAnalysis 8 1 7 true))).
Proof.
  apply (blowout_prefix
           (encode_game (scenario_a ++ [scoreless; scoreless]))
           (encode_game (firstn 7 (scenario_a ++ [scoreless; scoreless])))
           (scenario_a ++ [scoreless; scoreless]) 7 []
           (Some (mkAnalysis 8 1 7 true))).
  - reflexivity.
  - reflexivity.
  - lia.
  - reflexivity.
Defined.

(** ** Symmetry and scoreless innings *)

Lemma total_home_swap l : total_home (map swap_sides l) = total_away l.
Proof.
  unfold total_home, total_away; induction l as [|x l IH]; simpl;
    [reflexivity|now rewrite IH].
Qed.

Lemma total_away_swap l : total_away (map swap_sides l) = total_home l.
Proof.
  unfold total_home, total_away; induction l as [|x l IH]; simpl;
    [reflexivity|now rewrite IH].
Qed.

Lemma lead_swap l : lead (map swap_sides l) = lead l.
Proof. unfold lead; rewrite total_home_swap, total_away_swap; lia. Qed.

Lemma keeps_lead_swap l : keeps_lead (map swap_sides l) = keeps_lead l.
Proof.
  apply eq_true_iff_eq; rewrite !keeps_lead_spec, length_map.
  split; intros H k Hk; specialize (H k Hk);
    now rewrite firstn_map, lead_swap in *.
Qed.

Lemma verdict_swap l :
  verdict (map swap_sides l) =
  (fst (verdict l), option_map swap_analysis (snd (verdict l))).
Proof.
  destruct l as [|x l]; [reflexivity|].
  assert (Hne : x :: l <> []) by discriminate.
  assert (Hne' : map swap_sides (x :: l) <> []) by discriminate.
  rewrite (verdict_cons _ Hne), (verdict_cons _ Hne').
  rewrite firstn_map, lead_swap, total_home_swap, total_away_swap,
    keeps_lead_swap.
  now destruct (lead (firstn 6 (x :: l)) <? RUN_THRESHOLD).
Qed.

(** X3: the rule does not tell the sides apart.  Exchanging the home and
    away runs of every inning leaves the boolean, the lead and
    maintained_lead as they were and exchanges through_6_home with
    through_6_away. *)
Theorem is_blowout_swap game game' l logged b a :
  game_lines game = Some l ->
  game_lines game' = Some (map swap_sides l) ->
  is_blowout game = (logged, inr (b, a)) ->
  is_blowout game' = (logged, inr (b, option_map swap_analysis a)).
Proof.
  intros Hl Hl' E.
  rewrite (is_blowout_verdict _ _ Hl) in E.
  rewrite (is_blowout_verdict _ _ Hl'), verdict_swap.
  injection E as <- E; now rewrite E.
Qed.

Lemma is_blowout_swap_witness :
  is_blowout (encode_game (map swap_sides scenario_c)) =
  ([], inr (false,
            option_map swap_analysis (Some (mkAnalysis 6 0 6 false)))).
Proof.
  apply (is_blowout_swap (encode_game scenario_c)
           (encode_game (map swap_sides scenario_c)) scenario_c).
  - reflexivity.
  - reflexivity.
  - reflexivity.
Defined.

Lemma totals_firstn_scoreless m n :
  total_home (firstn m (repeat scoreless n)) = 0 /\
  total_away (firstn m (repeat scoreless n)) = 0.
Proof.
  revert m; induction n as [|n IH]; intros [|m]; simpl; try (split; reflexivity).
  destruct (IH m) as [Hh Ha].
  rewrite total_home_cons, total_away_cons, Hh, Ha; split; reflexivity.
Qed.

Lemma lead_firstn_scoreless k l n :
  lead (firstn k (l ++ repeat scoreless n)) = lead (firstn k l).
Proof.
  unfold lead; rewrite firstn_app, total_home_app, total_away_app.
  destruct (totals_firstn_scoreless (k - List.length l) n) as [-> ->].
  f_equal; lia.
Qed.

Lemma totals_firstn_app_scoreless k l n :
  total_home (firstn k (l ++ repeat scoreless n)) = total_home (firstn k l) /\
  total_away (firstn k (l ++ repeat scoreless n)) = total_away (firstn k l).
Proof.
  rewrite firstn_app, total_home_app, total_away_app.
  destruct (totals_firstn_scoreless (k - List.length l) n) as [-> ->].
  split; lia.
Qed.

Lemma keeps_lead_scoreless l n :
  RUN_THRESHOLD <= lead (firstn 6 l) ->
  keeps_lead (l ++ repeat scoreless n) = keeps_lead l.
Proof.
  intros H6; apply eq_true_iff_eq; rewrite !keeps_lead_spec.
  rewrite length_app, repeat_length; split; intros H k Hk.
  - rewrite <- (lead_firstn_scoreless k l n); apply H; lia.
  - rewrite lead_firstn_scoreless.
    destruct (Nat.le_gt_cases k (List.length l)) as [Hs|Hs];
      [apply H; lia|].
    rewrite firstn_all2 by lia.
    destruct (Nat.le_gt_cases (List.length l) 6) as [Hs6|Hs6].
    + now rewrite firstn_all2 in H6.
    + rewrite <- (firstn_all l); apply H; lia.
Qed.

(** X4: scoreless innings at the end of a game change nothing.  For a
    game of at least one inning line, the evaluator returns the same
    boolean and the same analysis with any number of 0-0 innings
    appended. *)
Theorem is_blowout_scoreless game game' l n :
  game_lines game = Some l ->
  l <> [] ->
  game_lines game' = Some (l ++ repeat scoreless n) ->
  is_blowout game' = is_blowout game.
Proof.
  intros Hl Hne Hl'.
  rewrite (is_blowout_verdict _ _ Hl), (is_blowout_verdict _ _ Hl').
  do 2 f_equal.
  assert (Hne' : l ++ repeat scoreless n <> []).
  { destruct l; [contradiction|discriminate]. }
  rewrite (verdict_cons _ Hne), (verdict_cons _ Hne').
  rewrite lead_firstn_scoreless.
  destruct (totals_firstn_app_scoreless 6 l n) as [-> ->].
  destruct (Z.ltb_spec (lead (firstn 6 l)) RUN_THRESHOLD) as [|Hge];
    [reflexivity|].
  now rewrite (keeps_lead_scoreless _ _ Hge).
Qed.

Lemma is_blowout_scoreless_witness :
  is_blowout (encode_game (five_inning_rout ++ repeat scoreless 4)) =
  is_blowout (encode_game five_inning_rout).
Proof.
  apply (is_blowout_scoreless (encode_game five_inning_rout)
           (encode_game (five_inning_rout ++ repeat scoreless 4))
           five_inning_rout 4).
  - reflexivity.
  - discriminate.
  - reflexivity.
Defined.

(** ** The evaluator on any document *)

(** X5: the evaluator consults nothing but the innings list.  Two game
    documents with the same list under linescore.innings get the same
    answer and the same log, whatever their team names, scores or status
    say, whether or not the entries are well formed. *)
Theorem is_blowout_only_innings game game' vs :
  game_innings game = Some vs ->
  game_innings game' = Some vs ->
  is_blowout game' = is_blowout game.
Proof.
  intros Hg Hg'; unfold is_blowout.
  now rewrite (is_blowout_try_game_with _ _ Hg),
    (is_blowout_try_game_with _ _ Hg').
Qed.

Lemma is_blowout_only_innings_witness :
  is_blowout
    (JDict [("teams", JDict [("home", JDict [("score", JInt 0)])]);
            ("linescore",
             JDict [("currentInning", JInt 9);
                    ("innings", JList (map encode_inning scenario_c))])])
  = is_blowout (encode_game scenario_c).
Proof.
  apply (is_blowout_only_innings (encode_game scenario_c) _
           (map encode_inning scenario_c)).
  - reflexivity.
  - reflexivity.
Defined.





(** ** Documents of the right shape never raise *)













(** * Further properties of the poll cycle *)

Lemma io_bind_inl {A B} t (e : exn) (k : A -> io B) :
  io_bind (t, inl e) k = (t, inl e).
Proof. reflexivity. Qed.

Lemma io_bind_inr {A B} t (a : A) (k : A -> io B) :
  io_bind (t, inr a) k = (t ++ fst (k a), snd (k a)).
Proof. unfold io_bind; now destruct (k a). Qed.

Ltac io_step :=
  match goal with
  | |- context [io_bind (io_lift ?m) _] =>
      let e := fresh "e" in
      let x := fresh "x" in
      let E := fresh "E" in
      destruct m as [e|x] eqn:E;
      [rewrite io_bind_lift_inl | rewrite io_bind_lift_inr]
  end.

(** X8: whatever the schedule entry and the feed hold, one pass of the
    loop body leaves one of five traces: nothing; a single in-progress
    upsert; a detail request alone; a request and a run of the evaluator
    that raised; or a request, a run and a single final upsert.  So a game
    costs at most one request and one upsert, the request comes before
    the evaluator and the evaluator before the upsert. *)
Theorem check_game_trace feed date game :
  game_trace (fst (check_game feed date game)).
Proof.
  unfold check_game.
  io_step; [constructor|].
  destruct (py_truthy x); cbn [negb]; [|constructor].
  do 5 (io_step; [constructor|]).
  destruct (is_final x4); cbn [negb].
  - unfold fetch_game_data; rewrite io_bind_inr.
    destruct (feed x) as [detailed|]; [|constructor].
    destruct (py_truthy detailed); cbn [negb]; [|constructor].
    do 3 (io_step; [constructor|]).
    unfold run_is_blowout.
    destruct (is_blowout x7) as [logged [e|r]].
    + rewrite io_bind_inl; constructor.
    + rewrite io_bind_inr; cbn; now constructor.
  - cbn; now constructor.
Qed.

(** ** Rows *)







(** ** The loop over the games of a day *)

Lemma check_games_app feed date gs1 :
  forall gs2 acc,
    Forall (fun g => exists r, snd (check_game feed date g) = inr r) gs1 ->
    check_games feed date (gs1 ++ gs2) acc =
    (flat_map (fun g => fst (check_game feed date g)) gs1
       ++ fst (check_games feed date gs2
                 (acc ++ flat_map
                           (fun g =>
                              match snd (check_game feed date g) with
                              | inr (Some gd) => [gd]
                              | _ => []
                              end) gs1)),
     snd (check_games feed date gs2
            (acc ++ flat_map
                      (fun g =>
                         match snd (check_game feed date g) with
                         | inr (Some gd) => [gd]
                         | _ => []
                         end) gs1))).
Proof.
  induction gs1 as [|g gs1 IH]; intros gs2 acc Hall.
  - cbn [app flat_map]; rewrite app_nil_r.
    now destruct (check_games feed date gs2 acc).
  - inversion Hall as [|? ? [r Hr] Hrest]; subst.
    cbn [app check_games flat_map].
    destruct (check_game feed date g) as [t res] eqn:Eg.
    cbn [snd] in Hr; subst res; cbn [fst snd].
    rewrite io_bind_inr, (IH gs2 _ Hrest); cbn [fst snd].
    rewrite <- (app_assoc t).
    destruct r as [gd|]; cbn [app].
    + now rewrite <- (app_assoc acc [gd]).
    + reflexivity.
Qed.

(** X10: when the body returns on every game of the day, the games are
    processed one after the other, each on its own: the trace of the loop
    is the traces of the games in schedule order, and the results
    gathered for the table are the summaries of the games that reached
    the final branch, in that order. *)
Theorem check_games_all_return feed date games acc :
  Forall (fun g => exists r, snd (check_game feed date g) = inr r) games ->
  check_games feed date games acc =
  (flat_map (fun g => fst (check_game feed date g)) games,
   inr (acc ++ flat_map
                 (fun g =>
                    match snd (check_game feed date g) with
                    | inr (Some gd) => [gd]
                    | _ => []
                    end) games)).
Proof.
  intros Hall.
  pose proof (check_games_app feed date games [] acc Hall) as H.
  rewrite app_nil_r in H; rewrite H; cbn; now rewrite app_nil_r.
Qed.

Lemma check_games_all_return_witness :
  check_games scenario_a_feed "2025-04-01"
    [schedule_game 1 "F"; schedule_game 2 "I"] [] =
  (flat_map (fun g => fst (check_game scenario_a_feed "2025-04-01" g))
     [schedule_game 1 "F"; schedule_game 2 "I"],
   inr ([] ++ flat_map
                (fun g =>
                   match snd (check_game scenario_a_feed "2025-04-01" g) with
                   | inr (Some gd) => [gd]
                   | _ => []
                   end) [schedule_game 1 "F"; schedule_game 2 "I"])).
Proof.
  apply (check_games_all_return scenario_a_feed "2025-04-01"
           [schedule_game 1 "F"; schedule_game 2 "I"] []).
  repeat constructor; eexists; reflexivity.
Defined.

(** X11: an exception in the body ends the loop.  When the body returns
    on the games before [game] and raises on [game], the loop raises the
    same exception; its trace stops inside [game], and the games after
    it are never looked at. *)
Theorem check_games_raise feed date before game after acc e :
  Forall (fun g => exists r, snd (check_game feed date g) = inr r) before ->
  snd (check_game feed date game) = inl e ->
  check_games feed date (before ++ game :: after) acc =
  (flat_map (fun g => fst (check_game feed date g)) before
     ++ fst (check_game feed date game),
   inl e).
Proof.
  intros Hall He.
  rewrite (check_games_app feed date before (game :: after) acc Hall).
  cbn [check_games].
  destruct (check_game feed date game) as [t res].
  cbn [snd] in He; subst res; now rewrite io_bind_inl.
Qed.

Lemma check_games_raise_witness :
  check_games null_linescore_feed "2025-04-01"
    ([schedule_game 2 "I"] ++ schedule_game 1 "F" :: [schedule_game 3 "I"])
    [] =
  (flat_map (fun g => fst (check_game null_linescore_feed "2025-04-01" g))
     [schedule_game 2 "I"]
     ++ fst (check_game null_linescore_feed "2025-04-01"
               (schedule_game 1 "F")),
   inl AttributeError).
Proof.
  apply (check_games_raise null_linescore_feed "2025-04-01"
           [schedule_game 2 "I"] (schedule_game 1 "F")
           [schedule_game 3 "I"] [] AttributeError).
  - repeat constructor; eexists; reflexivity.
  - reflexivity.
Defined.

(** ** Final games *)

Lemma py_get_dict obj k dflt v :
  py_get obj k dflt = inr v -> exists d, obj = JDict d.
Proof. destruct obj; try discriminate; intros _; eexists; reflexivity. Qed.

(** X12: for a final game whose detail feed carries inning lines under
    liveData.linescore.innings, the body requests the detail, runs the
    evaluator on the game with that linescore put in place of whatever
    linescore the schedule entry had, and upserts one "Final" summary
    whose verdict and analysis are the evaluator's on those inning
    lines; the summary is added to the day's results. *)
Theorem check_game_final feed date game pk at_ ht as_ hs detail live ls l :
  py_get game "gamePk" JNull = inr pk ->
  py_truthy pk = true ->
  team_name "away" game = inr at_ ->
  team_name "home" game = inr ht ->
  team_score "away" game = inr as_ ->
  team_score "home" game = inr hs ->
  coded_game_state game = inr (JStr "F") ->
  feed pk = Some detail ->
  py_truthy detail = true ->
  py_get detail "liveData" (JDict []) = inr live ->
  py_get live "linescore" (JDict []) = inr ls ->
  game_lines (JDict [("linescore", ls)]) = Some l ->
  exists game' b a,
    py_setitem game "linescore" ls = inr game' /\
    py_get game' "linescore" (JDict []) = inr ls /\
    is_blowout (encode_game l) = ([], inr (b, a)) /\
    let gd := mkGameData pk date at_ ht as_ hs "Final" b a in
    check_game feed date game =
    ([FetchGameData pk; IsBlowout game' [];
      Upsert gd (supabase_row_of gd)],
     inr (Some gd)).
Proof.
  intros Hpk Htr Hat Hht Has Hhs Hst Hfeed Hdt Hlive Hls Hl.
  destruct (py_get_dict _ _ _ _ Hpk) as [dg ->].
  exists (JDict (("linescore", ls) :: dg)), (fst (verdict l)),
    (snd (verdict l)).
  split; [reflexivity|]; split; [reflexivity|]; split.
  - rewrite (is_blowout_verdict _ _ (game_lines_encode l)).
    now destruct (verdict l).
  - assert (Hl' : game_lines (JDict (("linescore", ls) :: dg)) = Some l)
      by exact Hl.
    cbv zeta; unfold check_game.
    rewrite Hpk, io_bind_lift_inr, Htr; cbn [negb].
    rewrite Hat, io_bind_lift_inr, Hht, io_bind_lift_inr.
    rewrite Has, io_bind_lift_inr, Hhs, io_bind_lift_inr.
    rewrite Hst, io_bind_lift_inr; cbn [is_final String.eqb Ascii.eqb
                                         Bool.eqb negb].
    unfold fetch_game_data; rewrite io_bind_inr, Hfeed, Hdt; cbn [negb].
    rewrite Hlive, io_bind_lift_inr, Hls, io_bind_lift_inr.
    change (py_setitem (JDict dg) "linescore" ls)
      with (@inr exn value (JDict (("linescore", ls) :: dg))).
    rewrite io_bind_lift_inr.
    unfold run_is_blowout; rewrite (is_blowout_verdict _ _ Hl').
    rewrite io_bind_inr; reflexivity.
Qed.

Lemma check_game_final_witness :
  exists game' b a,
    py_setitem (schedule_game 1 "F") "linescore"
      (JDict [("innings", JList (map encode_inning scenario_a))])
    = inr game' /\
    py_get game' "linescore" (JDict []) =
      inr (JDict [("innings", JList (map encode_inning scenario_a))]) /\
    is_blowout (encode_game scenario_a) = ([], inr (b, a)) /\
    let gd := mkGameData (JInt 1) "2025-04-01" (JStr "Mets") (JStr "Cubs")
                         (JInt 2) (JInt 9) "Final" b a in
    check_game scenario_a_feed "2025-04-01" (schedule_game 1 "F") =
    ([FetchGameData (JInt 1); IsBlowout game' [];
      Upsert gd (supabase_row_of gd)],
     inr (Some gd)).
Proof.
  apply (check_game_final scenario_a_feed "2025-04-01"
           (schedule_game 1 "F") (JInt 1) (JStr "Mets") (JStr "Cubs")
           (JInt 2) (JInt 9)
           (JDict [("liveData",
                    JDict [("linescore",
                            JDict [("innings",
                                    JList (map encode_inning
                                             scenario_a))])])])
           (JDict [("linescore",
                    JDict [("innings",
                            JList (map encode_inning scenario_a))])])
           (JDict [("innings", JList (map encode_inning scenario_a))])
           scenario_a); reflexivity.
Defined.

(** X13: a final game whose detail request fails, or whose feed comes
    back empty, is passed over: the request is all that happens, nothing
    is upserted for the game and nothing is added to the results. *)
Theorem check_game_no_detail feed date game pk at_ ht as_ hs :
  py_get game "gamePk" JNull = inr pk ->
  py_truthy pk = true ->
  team_name "away" game = inr at_ ->
  team_name "home" game = inr ht ->
  team_score "away" game = inr as_ ->
  team_score "home" game = inr hs ->
  coded_game_state game = inr (JStr "F") ->
  (feed pk = None \/
   exists detail, feed pk = Some detail /\ py_truthy detail = false) ->
  check_game feed date game = ([FetchGameData pk], inr None).
Proof.
  intros Hpk Htr Hat Hht Has Hhs Hst Hfeed.
  unfold check_game.
  rewrite Hpk, io_bind_lift_inr, Htr; cbn [negb].
  rewrite Hat, io_bind_lift_inr, Hht, io_bind_lift_inr.
  rewrite Has, io_bind_lift_inr, Hhs, io_bind_lift_inr.
  rewrite Hst, io_bind_lift_inr; cbn [is_final String.eqb Ascii.eqb
                                       Bool.eqb negb].
  unfold fetch_game_data; rewrite io_bind_inr.
  destruct Hfeed as [->|(detail & -> & ->)]; reflexivity.
Qed.

Lemma check_game_no_detail_witness :
  check_game no_feed "2025-04-01" (schedule_game 1 "F") =
  ([FetchGameData (JInt 1)], inr None).
Proof.
  apply (check_game_no_detail no_feed "2025-04-01" (schedule_game 1 "F")
           (JInt 1) (JStr "Mets") (JStr "Cubs") (JInt 2) (JInt 9));
    try reflexivity.
  left; reflexivity.
Defined.

(** ** The printed table *)

Lemma check_game_result feed date game t gd :
  check_game feed date game = (t, inr (Some gd)) ->
  gd_status gd = "Final" /\ In (Upsert gd (supabase_row_of gd)) t.
Proof.
  unfold check_game.
  io_step; [discriminate|].
  destruct (py_truthy x); cbn [negb]; [|discriminate].
  do 5 (io_step; [discriminate|]).
  destruct (is_final x4); cbn [negb]; [|discriminate].
  unfold fetch_game_data; rewrite io_bind_inr.
  destruct (feed x) as [detailed|]; [|discriminate].
  destruct (py_truthy detailed); cbn [negb]; [|discriminate].
  do 3 (io_step; [discriminate|]).
  unfold run_is_blowout.
  destruct (is_blowout x7) as [logged [e|r]].
  - rewrite io_bind_inl; discriminate.
  - rewrite io_bind_inr; cbn; intros [= <- <-]; split; [reflexivity|].
    right; right; now left.
Qed.

Lemma check_games_results feed date games :
  forall acc t res,
    check_games feed date games acc = (t, inr res) ->
    exists new,
      res = acc ++ new /\
      Forall (fun gd => gd_status gd = "Final" /\
                        In (Upsert gd (supabase_row_of gd)) t) new.
Proof.
  induction games as [|g rest IH]; intros acc t res.
  - intros [= <- <-]; exists []; split; [now rewrite app_nil_r|constructor].
  - cbn [check_games].
    destruct (check_game feed date g) as [t1 [e|r]] eqn:Eg;
      [rewrite io_bind_inl; discriminate|].
    rewrite io_bind_inr.
    destruct (check_games feed date rest
                match r with
                | Some gd => acc ++ [gd]
                | None => acc
                end) as [t2 [e|res']] eqn:Er; [discriminate|].
    cbn [fst snd]; intros [= <- <-].
    destruct (IH _ _ _ Er) as (new & -> & Hnew).
    assert (Hnew' : Forall (fun gd => gd_status gd = "Final" /\
                      In (Upsert gd (supabase_row_of gd)) (t1 ++ t2)) new).
    { eapply Forall_impl; [|exact Hnew].
      intros gd [H1 H2]; split; [exact H1|apply in_or_app; now right]. }
    destruct r as [gd|].
    + exists (gd :: new); split; [now rewrite <- app_assoc|].
      constructor; [|exact Hnew'].
      destruct (check_game_result _ _ _ _ _ Eg) as [H1 H2].
      split; [exact H1|apply in_or_app; now left].
    + now exists new.
Qed.

(** X14: the table lists the final games of the cycle and nothing else.
    Whenever [check_blowouts] prints, the date shown is the one asked for
    (today when none was given), and every row stands for a summary that
    was upserted in this cycle with status "Final"; its mark is the check
    mark for a blowout and the cross otherwise.  The ellipsis of line 230
    is never printed: unfinished games are upserted but not listed. *)
Theorem check_blowouts_table today schedule feed date t d rows :
  check_blowouts today schedule feed date = (t, inr (Some (d, rows))) ->
  d = match date with Some x => x | None => today end /\
  Forall (fun row =>
            exists gd,
              In (Upsert gd (supabase_row_of gd)) t /\
              gd_status gd = "Final" /\
              row = mkTableRow (gd_away_team gd, gd_home_team gd)
                               (gd_away_score gd, gd_home_score gd)
                               "Final"
                               (if gd_is_blowout gd
                                then CheckMark else CrossMark))
         rows.
Proof.
  unfold check_blowouts.
  destruct (schedule match date with Some x => x | None => today end)
    as [data|]; [|discriminate].
  destruct (py_truthy data); cbn [negb]; [|discriminate].
  io_step; [discriminate|].
  destruct (dates_head x) as [first|]; [|discriminate].
  do 2 (io_step; [discriminate|]).
  destruct (py_truthy x1); cbn [negb]; [|discriminate].
  do 2 (io_step; [discriminate|]).
  destruct (check_games feed match date with Some x => x | None => today end
              x3 []) as [t' [e|res]] eqn:Eg;
    [rewrite io_bind_inl; discriminate|].
  rewrite io_bind_inr; cbn [fst snd io_ret].
  rewrite app_nil_r; intros [= <- <- <-]; split; [reflexivity|].
  destruct (check_games_results _ _ _ _ _ _ Eg) as (new & -> & Hnew).
  cbn [app]; unfold table_data; apply Forall_map.
  eapply Forall_impl; [|exact Hnew].
  intros gd [H1 H2]; exists gd; repeat split; try assumption.
  unfold status_symbol; rewrite H1; reflexivity.
Qed.

Lemma check_blowouts_table_witness :
  "2025-04-01" = match Some "2025-04-01" with
                 | Some x => x
                 | None => "2025-04-02"
                 end /\
  Forall (fun row =>
            exists gd,
              In (Upsert gd (supabase_row_of gd))
                 (fst (check_blowouts "2025-04-02" sample_schedule
                         scenario_a_feed (Some "2025-04-01"))) /\
              gd_status gd = "Final" /\
              row = mkTableRow (gd_away_team gd, gd_home_team gd)
                               (gd_away_score gd, gd_home_score gd)
                               "Final"
                               (if gd_is_blowout gd
                                then CheckMark else CrossMark))
         [mkTableRow (JStr "Mets", JStr "Cubs") (JInt 2, JInt 9)
                     "Final" CheckMark].
Proof.
  apply (check_blowouts_table "2025-04-02" sample_schedule scenario_a_feed
           (Some "2025-04-01")).
  reflexivity.
Defined.

(** ** The schedule *)

Lemma py_get_found_truthy obj k dflt v :
  py_get obj k dflt = inr v -> v <> dflt -> py_truthy obj = true.
Proof.
  destruct obj as [| | | | |d]; try discriminate.
  destruct d as [|kv d]; [|reflexivity].
  cbn; intros [= <-] H; now contradiction H.
Qed.

(** X15: a poll cycle is the loop over the games of the first date entry
    of the schedule, and of that entry only.  When the schedule holds a
    list of date entries and the first one a non-empty list of games,
    [check_blowouts] leaves the trace of the loop over these games, raises
    what the loop raises, and otherwise prints the table of the loop's
    results; further date entries are never read. *)
Theorem check_blowouts_first_date
  today schedule feed date data day rest game games :
  let d := match date with Some x => x | None => today end in
  schedule d = Some data ->
  py_get data "dates" (JList []) = inr (JList (day :: rest)) ->
  py_get day "games" (JList []) = inr (JList (game :: games)) ->
  check_blowouts today schedule feed date =
  (fst (check_games feed d (game :: games) []),
   match snd (check_games feed d (game :: games) []) with
   | inl e => inl e
   | inr game_results => inr (Some (d, table_data game_results))
   end).
Proof.
  intros d Hs Hdates Hgames; subst d.
  assert (Ht : py_truthy data = true)
    by (apply (py_get_found_truthy _ _ _ _ Hdates); discriminate).
  unfold check_blowouts; rewrite Hs, Ht; cbn [negb].
  rewrite Hdates, io_bind_lift_inr; cbn [dates_head].
  unfold ret at 1; rewrite io_bind_lift_inr, Hgames, io_bind_lift_inr.
  cbn [py_truthy negb py_len py_iter].
  unfold ret at 1; rewrite io_bind_lift_inr.
  unfold ret at 1; rewrite io_bind_lift_inr.
  destruct (check_games feed match date with Some x => x | None => today end
              (game :: games) []) as [t [e|res]].
  - reflexivity.
  - rewrite io_bind_inr; cbn; now rewrite app_nil_r.
Qed.

Lemma check_blowouts_first_date_witness :
  check_blowouts "2025-04-02" sample_schedule scenario_a_feed None =
  (fst (check_games scenario_a_feed "2025-04-02"
          [schedule_game 1 "F"; schedule_game 2 "I"] []),
   match snd (check_games scenario_a_feed "2025-04-02"
                [schedule_game 1 "F"; schedule_game 2 "I"] []) with
   | inl e => inl e
   | inr game_results => inr (Some ("2025-04-02", table_data game_results))
   end).
Proof.
  apply (check_blowouts_first_date "2025-04-02" sample_schedule
           scenario_a_feed None
           (JDict [("dates",
                    JList [JDict [("date", JStr "2025-04-02");
                                  ("games",
                                   JList [schedule_game 1 "F";
                                          schedule_game 2 "I"])]])])
           (JDict [("date", JStr "2025-04-02");
                   ("games", JList [schedule_game 1 "F";
                                    schedule_game 2 "I"])])
           []
           (schedule_game 1 "F") [schedule_game 2 "I"]);
    reflexivity.
Defined.
